(** * elia_chat: configuration and colour-theme schemas

    A shallow embedding of [elia_chat/config.py] and [elia_chat/themes.py].

    - Python values that reach the schemas (keyword arguments, parsed YAML
      documents) are the inductive [value]; a [dict] with string keys is a
      [gmap string value].
    - A Python [str] is a [string] whose characters are read as the code
      points U+0000..U+00FF.
    - Code that can raise lives in the monad [result]; [try ... except
      KeyError] is [except_KeyError].
    - The two files declare their records with pydantic's [BaseModel]. What
      the class bodies say (field order, field types, defaults, excluded
      fields, field validators) is transcribed field by field; the generic
      machinery they rely on is module [pydantic]. The conversions that the
      library applies to [bool], [int], [float] and URL fields in its lax
      mode are not written in this repository: they are the interface
      [Lax], and every statement holds for each of its implementations.
    - The property [default_model_object] is left out: its lookup is
      [elia_chat.models.get_model], which is not in these two files. *)

From Stdlib Require Import ZArith Ascii String Floats.PrimFloat.
From stdpp Require Import gmap strings list fin_maps.

Local Open Scope string_scope.

(** ** Python values *)

#[warnings="-register-all"]
Inductive value : Type :=
  | VNone
  | VBool (b : bool)
  | VInt (n : Z)
  | VFloat (f : float)
  | VStr (s : string)
  | VList (l : list value)
  | VDict (d : gmap string value).

(** Truth value of an object, as used by [not x], [x or y]. *)
Definition truthy (v : value) : bool :=
  match v with
  | VNone => false
  | VBool b => b
  | VInt n => negb (n =? 0)%Z
  | VFloat f => negb (PrimFloat.eqb f 0%float)
  | VStr s => negb (String.eqb s "")
  | VList l => match l with [] => false | _ => true end
  | VDict d => match map_to_list d with [] => false | _ => true end
  end.

(** [x or y] *)
Definition py_or (x y : value) : value := if truthy x then x else y.

(** ** Strings *)

(** [str.isspace] on one character, for the code points below 256:
    TAB..CR, FS..US, SPACE, NEXT LINE and NO-BREAK SPACE. *)
Definition isspace (c : ascii) : bool :=
  let n := nat_of_ascii c in
  (((9 <=? n) && (n <=? 13)) || ((28 <=? n) && (n <=? 32))
  || (n =? 133) || (n =? 160))%nat.

Fixpoint lstrip (s : string) : string :=
  match s with
  | String c s' => if isspace c then lstrip s' else s
  | EmptyString => EmptyString
  end.

(** [rstrip]: a character is kept when it is not a space or when something
    is kept after it. *)
Fixpoint rstrip (s : string) : string :=
  match s with
  | String c s' =>
      match rstrip s' with
      | EmptyString => if isspace c then EmptyString else String c EmptyString
      | r => String c r
      end
  | EmptyString => EmptyString
  end.

(** [str.strip()] with no argument. *)
Definition strip (s : string) : string := rstrip (lstrip s).

Fixpoint all_space (s : string) : bool :=
  match s with
  | String c s' => isspace c && all_space s'
  | EmptyString => true
  end.

(** ** Exceptions and results *)

(** One entry of a pydantic [ValidationError]: where, and what kind.
    [bool_parsing], [int_parsing], [float_parsing] and [url_parsing] stand
    for whatever kind the library reports when a conversion of [Lax]
    refuses its input. *)
Inductive error_type : Type :=
  | missing
  | string_type
  | dict_type
  | list_type
  | model_type
  | bool_parsing
  | int_parsing
  | float_parsing
  | url_parsing
  | value_error (msg : string).

Inductive loc_item : Type :=
  | LField (name : string)
  | LIndex (i : nat).

Definition line_error : Type := list loc_item * error_type.

Inductive exn : Type :=
  | ValidationError (title : string) (errors : list line_error)
  | ValueError (msg : string)
  | KeyError (key : string)
  | TypeError (msg : string)
  | OSError (msg : string)
  | YAMLError (msg : string).

Inductive result (A : Type) : Type :=
  | Return (a : A)
  | Raise (e : exn).
Arguments Return {A} a.
Arguments Raise {A} e.

#[global] Instance result_ret : MRet result := @Return.
#[global] Instance result_bind : MBind result := λ A B f m,
  match m with
  | Return a => f a
  | Raise e => Raise e
  end.
#[global] Instance result_fmap : FMap result := λ A B f m,
  match m with
  | Return a => Return (f a)
  | Raise e => Raise e
  end.

(** [try: body / except KeyError: handler]. pydantic's [ValidationError]
    derives from [ValueError], not from [KeyError]. *)
Definition except_KeyError {A} (body : result A) (handler : result A) : result A :=
  match body with
  | Raise (KeyError _) => handler
  | r => r
  end.

(** A call of [f] with the keyword arguments [**v]: the argument after
    [**] must be a mapping. *)
Definition call_kwargs {A} (f : gmap string value → result A) (v : value) : result A :=
  match v with
  | VDict d => f d
  | _ => Raise (TypeError "argument after ** must be a mapping")
  end.

(** [v[key]] for a string key. *)
Definition getitem (v : value) (key : string) : result value :=
  match v with
  | VDict d =>
      match d !! key with
      | Some x => Return x
      | None => Raise (KeyError key)
      end
  | VStr _ | VList _ => Raise (TypeError "indices must be integers")
  | _ => Raise (TypeError "object is not subscriptable")
  end.

(** [os.environ] and [os.getenv(key, default)]. *)
Definition getenv (environ : gmap string string) (key default : string) : string :=
  match environ !! key with
  | Some v => v
  | None => default
  end.

(** ** The validation library *)

Module pydantic.

(** Outcome of validating one field or one model: a value, the collected
    line errors, or an exception that is not a validation failure and
    leaves the validation at once. *)
Inductive validated (A : Type) : Type :=
  | Valid (a : A)
  | Invalid (errors : list line_error)
  | Escapes (e : exn).
Arguments Valid {A} a.
Arguments Invalid {A} errors.
Arguments Escapes {A} e.

Definition vmap {A B} (f : A → B) (x : validated A) : validated B :=
  match x with
  | Valid a => Valid (f a)
  | Invalid es => Invalid es
  | Escapes e => Escapes e
  end.

(** Fields are validated in declaration order and every failure is
    reported: errors accumulate from left to right. *)
Definition ap {A B} (f : validated (A → B)) (x : validated A) : validated B :=
  match f with
  | Escapes e => Escapes e
  | Valid g =>
      match x with
      | Valid a => Valid (g a)
      | Invalid es => Invalid es
      | Escapes e => Escapes e
      end
  | Invalid es1 =>
      match x with
      | Valid _ => Invalid es1
      | Invalid es2 => Invalid (es1 ++ es2)
      | Escapes e => Escapes e
      end
  end.

Definition at_loc {A} (item : loc_item) (x : validated A) : validated A :=
  match x with
  | Invalid es => Invalid ((λ le : line_error, (item :: le.1, le.2)) <$> es)
  | r => r
  end.

Definition schema (A : Type) : Type := value → validated A.

(** How a field gets its value when the caller does not pass it. Defaults
    are used as they are ([validate_default] is off): no type check, no
    field validator. *)
Inductive field_default (A : Type) : Type :=
  | Required
  | Default (a : A)
  | DefaultFactory (factory : result A).
Arguments Required {A}.
Arguments Default {A} a.
Arguments DefaultFactory {A} factory.

Definition field {A} (name : string) (s : schema A) (d : field_default A)
    (kwargs : gmap string value) : validated A :=
  match kwargs !! name with
  | Some v => at_loc (LField name) (s v)
  | None =>
      match d with
      | Required => Invalid [([LField name], missing)]
      | Default a => Valid a
      | DefaultFactory factory =>
          match factory with
          | Return a => Valid a
          | Raise e => Escapes e
          end
      end
  end.

(** [BaseModel.__init__]: keyword arguments that name no field are
    ignored; any line error raises [ValidationError] titled with the
    class name. *)
Definition init {A} (title : string) (x : validated A) : result A :=
  match x with
  | Valid a => Return a
  | Invalid es => Raise (ValidationError title es)
  | Escapes e => Raise e
  end.

(** [str]: no conversion from other types of [value]. *)
Definition str_schema : schema string := λ v,
  match v with
  | VStr s => Valid s
  | _ => Invalid [([], string_type)]
  end.

(** [T | None] *)
Definition nullable {A} (s : schema A) : schema (option A) := λ v,
  match v with
  | VNone => Valid None
  | _ => vmap Some (s v)
  end.

(** [dict] *)
Definition dict_schema : schema (gmap string value) := λ v,
  match v with
  | VDict d => Valid d
  | _ => Invalid [([], dict_type)]
  end.

(** [SecretStr]: wraps a string; only [get_secret_value] reveals it. *)
Record SecretStr : Type := { get_secret_value : string }.

Definition secret_str_schema : schema SecretStr := λ v,
  vmap Build_SecretStr (str_schema v).

(** [AnyHttpUrl]: the URL object the library builds. *)
Record AnyHttpUrl : Type := { unicode_string : string }.

Fixpoint list_items {A} (s : schema A) (i : nat) (l : list value) : validated (list A) :=
  match l with
  | [] => Valid []
  | v :: l' => ap (vmap cons (at_loc (LIndex i) (s v))) (list_items s (S i) l')
  end.

(** [list[T]] *)
Definition list_schema {A} (s : schema A) : schema (list A) := λ v,
  match v with
  | VList l => list_items s 0 l
  | _ => Invalid [([], list_type)]
  end.

(** A field whose type is a model class, given as a mapping of its
    fields. *)
Definition model_schema {A} (validate : gmap string value → validated A) : schema A := λ v,
  match v with
  | VDict d => validate d
  | _ => Invalid [([], model_type)]
  end.

(** [@field_validator(name)] in its default mode: the function runs on
    the value the field's type accepted; a [ValueError] it raises becomes
    a line error of the field. *)
Definition field_validator {A} (s : schema A) (f : A → result A) : schema A := λ v,
  match s v with
  | Valid a =>
      match f a with
      | Return b => Valid b
      | Raise (ValueError msg) => Invalid [([], value_error msg)]
      | Raise e => Escapes e
      end
  | r => r
  end.

(** The lax-mode conversions of the scalar types. A value that already
    has the field's type is taken as it is. *)
Class Lax : Type := {
  lax_bool : value → option bool;
  lax_int : value → option Z;
  lax_float : value → option float;
  lax_url : value → option AnyHttpUrl;
  lax_bool_exact : ∀ b, lax_bool (VBool b) = Some b;
  lax_int_exact : ∀ n, lax_int (VInt n) = Some n;
  lax_float_exact : ∀ f, lax_float (VFloat f) = Some f;
}.

Definition lax_schema {A} (conv : value → option A) (err : error_type) : schema A := λ v,
  match conv v with
  | Some a => Valid a
  | None => Invalid [([], err)]
  end.

Definition bool_schema `{Lax} : schema bool := lax_schema lax_bool bool_parsing.
Definition int_schema `{Lax} : schema Z := lax_schema lax_int int_parsing.
Definition float_schema `{Lax} : schema float := lax_schema lax_float float_parsing.
Definition url_schema `{Lax} : schema AnyHttpUrl := lax_schema lax_url url_parsing.

(** The implementation of [Lax] that converts nothing and builds no URL;
    the concrete runs below use it. *)
Definition exact_only : Lax := {|
  lax_bool := λ v, match v with VBool b => Some b | _ => None end;
  lax_int := λ v, match v with VInt n => Some n | _ => None end;
  lax_float := λ v, match v with VFloat f => Some f | _ => None end;
  lax_url := λ _, None;
  lax_bool_exact := λ _, eq_refl;
  lax_int_exact := λ _, eq_refl;
  lax_float_exact := λ _, eq_refl;
|}.

End pydantic.

Notation "f <*> x" := (pydantic.ap f x) (at level 61, left associativity).

Import pydantic.

(** ** config.py *)

Module EliaChatModel.

Record t : Type := {
  name : string;
  id : option string;
  display_name : option string;
  provider : option string;
  api_key : option SecretStr;
  api_base : option AnyHttpUrl;
  organization : option string;
  description : option string;
  product : option string;
  temperature : float;
  max_retries : Z;
}.

(** The fields in declaration order, each with its type and default. *)
Definition validate `{Lax} (kwargs : gmap string value) : validated t :=
  Valid Build_t
    <*> field "name" str_schema Required kwargs
    <*> field "id" (nullable str_schema) (Default None) kwargs
    <*> field "display_name" (nullable str_schema) (Default None) kwargs
    <*> field "provider" (nullable str_schema) (Default None) kwargs
    <*> field "api_key" (nullable secret_str_schema) (Default None) kwargs
    <*> field "api_base" (nullable url_schema) (Default None) kwargs
    <*> field "organization" (nullable str_schema) (Default None) kwargs
    <*> field "description" (nullable str_schema) (Default None) kwargs
    <*> field "product" (nullable str_schema) (Default None) kwargs
    <*> field "temperature" float_schema (Default 1%float) kwargs
    <*> field "max_retries" int_schema (Default 0%Z) kwargs.

(** The call [EliaChatModel(...)] with keyword arguments [kwargs]. *)
Definition new `{Lax} (kwargs : gmap string value) : result t :=
  init "EliaChatModel" (validate kwargs).

(** [self.id or self.name]: [None] and the empty string are both false. *)
Definition lookup_key (self : t) : string :=
  match id self with
  | Some i => if String.eqb i "" then name self else i
  | None => name self
  end.

End EliaChatModel.

(** The literal [0.7], which is the binary64 number nearest to 7/10. *)
Definition float_0_7 : float := 0x1.6666666666666p-1%float.

Definition get_builtin_openai_models `{Lax} : result (list EliaChatModel.t) :=
  mapM EliaChatModel.new [
    {[ "id" := VStr "elia-gpt-4.1";
       "name" := VStr "gpt-4.1";
       "display_name" := VStr "GPT-4.1";
       "provider" := VStr "OpenAI";
       "product" := VStr "ChatGPT";
       "description" := VStr "Flagship GPT model for complex tasks.";
       "temperature" := VFloat float_0_7 ]};
    {[ "id" := VStr "elia-gpt-4o";
       "name" := VStr "gpt-4o";
       "display_name" := VStr "GPT-4o";
       "provider" := VStr "OpenAI";
       "product" := VStr "ChatGPT";
       "description" := VStr "Fast, intelligent, flexible GPT model.";
       "temperature" := VFloat float_0_7 ]};
    {[ "id" := VStr "elia-o4-mini";
       "name" := VStr "o4-mini";
       "display_name" := VStr "o4-mini";
       "provider" := VStr "OpenAI";
       "product" := VStr "ChatGPT";
       "description" := VStr "Faster, more affordable reasoning model" ]}
  ].

Definition get_builtin_anthropic_models `{Lax} : result (list EliaChatModel.t) :=
  mapM EliaChatModel.new [
    {[ "id" := VStr "elia-claude-3-7-sonnet-20250219";
       "name" := VStr "claude-3-7-sonnet-20250219";
       "display_name" := VStr "Claude 3.7 Sonnet";
       "provider" := VStr "Anthropic";
       "product" := VStr "Claude 3.7";
       "description" :=
         VStr "Anthropic's most intelligent model with extended thinking capabilities" ]};
    {[ "id" := VStr "elia-claude-3-5-sonnet-20241022";
       "name" := VStr "claude-3-5-sonnet-20241022";
       "display_name" := VStr "Claude 3.5 Sonnet";
       "provider" := VStr "Anthropic";
       "product" := VStr "Claude 3.5 Sonnet";
       "description" := VStr "Anthropic's previous most intelligent model." ]};
    {[ "id" := VStr "elia-claude-3-5-haiku-20241022";
       "name" := VStr "claude-3-5-haiku-20241022";
       "display_name" := VStr "Claude 3.5 Haiku";
       "provider" := VStr "Anthropic";
       "product" := VStr "Claude 3.5 Haiku";
       "description" := VStr "Anthropic's fastest and most cost-effective model." ]}
  ].

Definition get_builtin_google_models `{Lax} : result (list EliaChatModel.t) :=
  mapM EliaChatModel.new [
    {[ "id" := VStr "elia-gemini-2.5-pro-preview-05-06";
       "name" := VStr "gemini-2.5-pro-preview-05-06";
       "display_name" := VStr "Gemini 2.5 Pro Preview";
       "provider" := VStr "Google";
       "product" := VStr "Gemini";
       "description" := VStr "Google's most powerful thinking model." ]};
    {[ "id" := VStr "elia-gemini-2.5-flash-preview-05-20";
       "name" := VStr "gemini-2.5-flash-preview-05-20";
       "display_name" := VStr "Gemini 2.5 Flash Preview";
       "provider" := VStr "Google";
       "product" := VStr "Gemini";
       "description" :=
         VStr "Google's first hybrid reasoning model with thinking budgets." ]}
  ].

Definition get_builtin_models `{Lax} : result (list EliaChatModel.t) :=
  openai ← get_builtin_openai_models;
  anthropic ← get_builtin_anthropic_models;
  google ← get_builtin_google_models;
  mret ((openai ++ anthropic) ++ google)%list.

Module LaunchConfig.

Record t : Type := {
  default_model : string;
  system_prompt : string;
  message_code_theme : string;
  models : list EliaChatModel.t;
  builtin_models : list EliaChatModel.t;
  theme : string;
}.

(** What the class statement leaves behind. Its body runs once, when
    [elia_chat.config] is imported, and [os.getenv] is called there: the
    default of [system_prompt] is a string stored in the class. *)
Record class : Type := { system_prompt_default : string }.

Definition class_body (environ : gmap string string) : class :=
  {| system_prompt_default :=
       getenv environ "ELIA_SYSTEM_PROMPT" "You are a helpful assistant named Elia." |}.

(** The field validator of [system_prompt]. *)
Definition non_empty (value : string) : result string :=
  if negb (truthy (VStr value)) || String.eqb (strip value) ""
  then Raise (ValueError "system prompt must not be empty")
  else Return value.

(** The fields in declaration order. [default_factory=list] gives the empty
    list. The [init=False] of [builtin_models] is an option of pydantic
    dataclasses; no statement below passes [builtin_models]. *)
Definition validate `{Lax} (cls : class) (kwargs : gmap string value) : validated t :=
  Valid Build_t
    <*> field "default_model" str_schema (Default "elia-gpt-4.1") kwargs
    <*> field "system_prompt" (field_validator str_schema non_empty)
          (Default (system_prompt_default cls)) kwargs
    <*> field "message_code_theme" str_schema (Default "monokai") kwargs
    <*> field "models" (list_schema (model_schema EliaChatModel.validate))
          (DefaultFactory (Return [])) kwargs
    <*> field "builtin_models" (list_schema (model_schema EliaChatModel.validate))
          (DefaultFactory get_builtin_models) kwargs
    <*> field "theme" str_schema (Default "nebula") kwargs.

(** The call [LaunchConfig(...)] with keyword arguments [kwargs]. *)
Definition new `{Lax} (cls : class) (kwargs : gmap string value) : result t :=
  init "LaunchConfig" (validate cls kwargs).

Definition all_models (self : t) : list EliaChatModel.t :=
  (models self ++ builtin_models self)%list.

Definition get_current `{Lax} (cls : class) : result t := new cls ∅.

End LaunchConfig.

(** A running program that has imported [elia_chat.config]: its
    environment, which it can change at any time, and the class object
    made at import. *)
Record process : Type := {
  os_environ : gmap string string;
  LaunchConfig_class : LaunchConfig.class;
}.

Definition import_config (environ : gmap string string) : process :=
  {| os_environ := environ; LaunchConfig_class := LaunchConfig.class_body environ |}.

(** [os.environ[key] = v] and [del os.environ[key]]. *)
Inductive env_step : process → process → Prop :=
  | step_setenv p key v :
      env_step p {| os_environ := <[key := v]> (os_environ p);
                    LaunchConfig_class := LaunchConfig_class p |}
  | step_unsetenv p key :
      env_step p {| os_environ := delete key (os_environ p);
                    LaunchConfig_class := LaunchConfig_class p |}.

(** [LaunchConfig(...)] called in process [p]. *)
Definition construct `{Lax} (p : process) (kwargs : gmap string value) : result LaunchConfig.t :=
  LaunchConfig.new (LaunchConfig_class p) kwargs.

(** ** themes.py *)

(** [textual.design.ColorSystem] is not part of this repository: an
    instance is represented by the keyword arguments it was made from. *)
Inductive ColorSystem : Type :=
  | ColorSystem_init (kwargs : gmap string value).

Definition optional_str (o : option string) : value :=
  match o with
  | Some s => VStr s
  | None => VNone
  end.

Module Theme.

Record t : Type := {
  name : string;
  primary : string;
  secondary : option string;
  background : option string;
  surface : option string;
  panel : option string;
  warning : option string;
  error : option string;
  success : option string;
  accent : option string;
  dark : bool;
  variables : gmap string value;
}.

Definition validate `{Lax} (kwargs : gmap string value) : validated t :=
  Valid Build_t
    <*> field "name" str_schema Required kwargs
    <*> field "primary" str_schema Required kwargs
    <*> field "secondary" (nullable str_schema) (Default None) kwargs
    <*> field "background" (nullable str_schema) (Default None) kwargs
    <*> field "surface" (nullable str_schema) (Default None) kwargs
    <*> field "panel" (nullable str_schema) (Default None) kwargs
    <*> field "warning" (nullable str_schema) (Default None) kwargs
    <*> field "error" (nullable str_schema) (Default None) kwargs
    <*> field "success" (nullable str_schema) (Default None) kwargs
    <*> field "accent" (nullable str_schema) (Default None) kwargs
    <*> field "dark" bool_schema (Default true) kwargs
    <*> field "variables" dict_schema Required kwargs.

(** The call [Theme(...)] with keyword arguments [kwargs]. *)
Definition new `{Lax} (kwargs : gmap string value) : result t :=
  init "Theme" (validate kwargs).

(** Every declared field with its value. *)
Definition fields (self : t) : gmap string value :=
  {[ "name" := VStr (name self);
     "primary" := VStr (primary self);
     "secondary" := optional_str (secondary self);
     "background" := optional_str (background self);
     "surface" := optional_str (surface self);
     "panel" := optional_str (panel self);
     "warning" := optional_str (warning self);
     "error" := optional_str (error self);
     "success" := optional_str (success self);
     "accent" := optional_str (accent self);
     "dark" := VBool (dark self);
     "variables" := VDict (variables self) ]}.

(** The fields declared with [Field(exclude=True)]. *)
Definition field_exclude : gset string := {[ "name" ]}.

(** [self.model_dump(exclude=...)] *)
Definition model_dump (self : t) (exclude : gset string) : gmap string value :=
  filter (λ kv, kv.1 ∉ field_exclude ∪ exclude) (fields self).

Definition to_color_system (self : t) : ColorSystem :=
  ColorSystem_init
    (model_dump self {[ "text_area"; "syntax"; "variable"; "url"; "method" ]}).

End Theme.

(** One entry of [theme_directory().iterdir()]: the path as a string, its
    [suffix], and what [yaml.load] gives for the opened file (or the
    exception that opening or parsing raises). [theme_directory] is
    defined in [elia_chat.locations]; the directory listing is an input
    here. *)
Record theme_file : Type := {
  path : string;
  suffix : string;
  yaml_load : result value;
}.

(** [themes[key] = theme], for a dictionary whose keys are strings. Lists
    and dictionaries are not hashable. [load_theme_file] stores only under
    a key that [Theme.new] accepted as [name], which is a string
    ([Theme_new_name]). *)
Definition setitem {A} (d : gmap string A) (key : value) (x : A) : result (gmap string A) :=
  match key with
  | VStr k => Return (<[k := x]> d)
  | VList _ | VDict _ => Raise (TypeError "unhashable type")
  | _ => Raise (TypeError "key is not a string")
  end.

(** The message of the [ValueError] raised from the [except] clause. *)
Definition invalid_theme_file (path : string) : string :=
  "Invalid theme file " +:+ path +:+ ". A `name` is required.".

(** The body of the loop, for a file with the right suffix. In the
    assignment [themes[theme_content["name"]] = Theme(...)] the right-hand
    side is evaluated first, then the subscript of the target. *)
Definition load_theme_file `{Lax} (themes : gmap string Theme.t) (f : theme_file)
    : result (gmap string Theme.t) :=
  loaded ← yaml_load f;
  let theme_content := py_or loaded (VDict ∅) in
  except_KeyError
    (theme ← call_kwargs Theme.new theme_content;
     key ← getitem theme_content "name";
     setitem themes key theme)
    (Raise (ValueError (invalid_theme_file (path f)))).

Fixpoint load_themes_loop `{Lax} (themes : gmap string Theme.t) (listing : list theme_file)
    : result (gmap string Theme.t) :=
  match listing with
  | [] => Return themes
  | f :: rest =>
      if String.eqb (suffix f) ".yaml" || String.eqb (suffix f) ".yml"
      then themes' ← load_theme_file themes f; load_themes_loop themes' rest
      else load_themes_loop themes rest
  end.

Definition load_user_themes `{Lax} (listing : list theme_file) : result (gmap string Theme.t) :=
  load_themes_loop ∅ listing.

(** The table of builtin themes. It is built when [elia_chat.themes] is
    imported, by nine calls of [Theme(...)]; colours are written as in the
    source. *)
Definition BUILTIN_THEMES `{Lax} : result (gmap string Theme.t) :=
  textual ← Theme.new
    {[ "name" := VStr "textual";
       "primary" := VStr "#004578";
       "secondary" := VStr "#0178D4";
       "warning" := VStr "#ffa62b";
       "error" := VStr "#ba3c5b";
       "success" := VStr "#4EBF71";
       "accent" := VStr "#ffa62b";
       "dark" := VBool true;
       "variables" := VDict ∅ ]};
  monokai ← Theme.new
    {[ "name" := VStr "monokai";
       "primary" := VStr "#F92672";
       "secondary" := VStr "#66D9EF";
       "warning" := VStr "#FD971F";
       "error" := VStr "#F92672";
       "success" := VStr "#A6E22E";
       "accent" := VStr "#AE81FF";
       "background" := VStr "#272822";
       "surface" := VStr "#3E3D32";
       "panel" := VStr "#3E3D32";
       "dark" := VBool true;
       "variables" := VDict ∅ ]};
  nautilus ← Theme.new
    {[ "name" := VStr "nautilus";
       "primary" := VStr "#0077BE";
       "secondary" := VStr "#20B2AA";
       "warning" := VStr "#FFD700";
       "error" := VStr "#FF6347";
       "success" := VStr "#32CD32";
       "accent" := VStr "#FF8C00";
       "dark" := VBool true;
       "background" := VStr "#001F3F";
       "surface" := VStr "#003366";
       "panel" := VStr "#005A8C";
       "variables" := VDict ∅ ]};
  galaxy ← Theme.new
    {[ "name" := VStr "galaxy";
       "primary" := VStr "#8A2BE2";
       "secondary" := VStr "#a684e8";
       "warning" := VStr "#FFD700";
       "error" := VStr "#FF4500";
       "success" := VStr "#00FA9A";
       "accent" := VStr "#FF69B4";
       "dark" := VBool true;
       "background" := VStr "#0F0F1F";
       "surface" := VStr "#1E1E3F";
       "panel" := VStr "#2D2B55";
       "variables" := VDict ∅ ]};
  nebula ← Theme.new
    {[ "name" := VStr "nebula";
       "primary" := VStr "#4169E1";
       "secondary" := VStr "#9400D3";
       "warning" := VStr "#FFD700";
       "error" := VStr "#FF1493";
       "success" := VStr "#00FF7F";
       "accent" := VStr "#FF00FF";
       "dark" := VBool true;
       "background" := VStr "#0A0A23";
       "surface" := VStr "#1C1C3C";
       "panel" := VStr "#2E2E5E";
       "variables" := VDict ∅ ]};
  alpine ← Theme.new
    {[ "name" := VStr "alpine";
       "primary" := VStr "#4A90E2";
       "secondary" := VStr "#81A1C1";
       "warning" := VStr "#EBCB8B";
       "error" := VStr "#BF616A";
       "success" := VStr "#A3BE8C";
       "accent" := VStr "#5E81AC";
       "dark" := VBool true;
       "background" := VStr "#2E3440";
       "surface" := VStr "#3B4252";
       "panel" := VStr "#434C5E";
       "variables" := VDict ∅ ]};
  cobalt ← Theme.new
    {[ "name" := VStr "cobalt";
       "primary" := VStr "#334D5C";
       "secondary" := VStr "#4878A6";
       "warning" := VStr "#FFAA22";
       "error" := VStr "#E63946";
       "success" := VStr "#4CAF50";
       "accent" := VStr "#D94E64";
       "dark" := VBool true;
       "surface" := VStr "#27343B";
       "panel" := VStr "#2D3E46";
       "background" := VStr "#1F262A";
       "variables" := VDict ∅ ]};
  twilight ← Theme.new
    {[ "name" := VStr "twilight";
       "primary" := VStr "#367588";
       "secondary" := VStr "#5F9EA0";
       "warning" := VStr "#FFD700";
       "error" := VStr "#FF6347";
       "success" := VStr "#00FA9A";
       "accent" := VStr "#FF7F50";
       "dark" := VBool true;
       "background" := VStr "#191970";
       "surface" := VStr "#3B3B6D";
       "panel" := VStr "#4C516D";
       "variables" := VDict ∅ ]};
  hacker ← Theme.new
    {[ "name" := VStr "hacker";
       "primary" := VStr "#00FF00";
       "secondary" := VStr "#32CD32";
       "warning" := VStr "#ADFF2F";
       "error" := VStr "#FF4500";
       "success" := VStr "#00FA9A";
       "accent" := VStr "#39FF14";
       "dark" := VBool true;
       "background" := VStr "#0D0D0D";
       "surface" := VStr "#1A1A1A";
       "panel" := VStr "#2A2A2A";
       "variables" := VDict ∅ ]};
  mret ({[ "textual" := textual;
           "monokai" := monokai;
           "nautilus" := nautilus;
           "galaxy" := galaxy;
           "nebula" := nebula;
           "alpine" := alpine;
           "cobalt" := cobalt;
           "twilight" := twilight;
           "hacker" := hacker ]} : gmap string Theme.t).

(** ** Vocabulary of the proofs *)

Definition is_escape {A} (x : validated A) : bool :=
  match x with
  | Escapes _ => true
  | _ => false
  end.

(** A schema that never lets an exception through. *)
Definition total {A} (s : schema A) : Prop := ∀ v, is_escape (s v) = false.

(** The first error that a validation reports. *)
Definition reports_first {A} (le : line_error) (x : validated A) : Prop :=
  ∃ es, x = Invalid (le :: es).

(** The ways of giving [None], or nothing that is true, as [id]. *)
Definition id_unset (kwargs : gmap string value) : Prop :=
  kwargs !! "id" = None ∨ kwargs !! "id" = Some VNone ∨ kwargs !! "id" = Some (VStr "").

(** An error that a validation reports, anywhere in its list. *)
Definition reports {A} (le : line_error) (x : validated A) : Prop :=
  ∃ es, x = Invalid es ∧ le ∈ es.

(** The test of the loader on the suffix of a path. *)
Definition theme_suffix (f : theme_file) : bool :=
  String.eqb (suffix f) ".yaml" || String.eqb (suffix f) ".yml".

(** The names of the fields of [Theme] and of [EliaChatModel]. *)
Definition Theme_field_names : gset string :=
  {[ "name"; "primary"; "secondary"; "background"; "surface"; "panel"; "warning";
     "error"; "success"; "accent"; "dark"; "variables" ]}.

Definition EliaChatModel_field_names : gset string :=
  {[ "name"; "id"; "display_name"; "provider"; "api_key"; "api_base"; "organization";
     "description"; "product"; "temperature"; "max_retries" ]}.

(** The theme that a file holds, when [Theme(...)] accepts its document. *)
Definition holds_theme `{Lax} (f : theme_file) (t : Theme.t) : Prop :=
  ∃ d, yaml_load f = Return (VDict d) ∧ Theme.new d = Return t.

(** Evaluates the calls [Theme(...)] of a sequence one after the other;
    [E] says that [dark=True] is taken as it is. *)
Ltac eval_theme_calls E :=
  repeat match goal with
  | |- context [Theme.new ?kw] =>
      let H := fresh "Hcall" in
      eassert (Theme.new kw = Return _) as H by (vm_compute; rewrite E; reflexivity);
      rewrite H; clear H;
      lazymatch goal with
      | |- (mbind ?k (Return ?t)) = ?r => change (k t = r); cbv beta
      end
  end.

(** * Properties *)

(** ** The validation library *)

Section validation.
Context `{L : Lax}.

Lemma ap_Valid_inv {A B} (f : validated (A → B)) x b :
  f <*> x = Valid b → ∃ g a, f = Valid g ∧ x = Valid a ∧ b = g a.
Proof. destruct f, x; simpl; intros [=]; subst; eauto. Qed.

Lemma ap_no_escape {A B} (f : validated (A → B)) x :
  is_escape f = false → is_escape x = false → is_escape (f <*> x) = false.
Proof. by destruct f, x. Qed.

Lemma ap_reports {A B} le (f : validated (A → B)) x :
  reports_first le f → is_escape x = false → reports_first le (f <*> x).
Proof.
  intros [es ->] ?. unfold reports_first.
  destruct x; simpl in *; [by eauto|by eauto|done].
Qed.

Lemma ap_reports_first {A} le (x : validated A) :
  reports_first le x → ∃ es, x = Invalid (le :: es).
Proof. done. Qed.

Lemma at_loc_no_escape {A} item (x : validated A) :
  is_escape x = false → is_escape (at_loc item x) = false.
Proof. by destruct x. Qed.

Lemma field_no_escape {A} name (s : schema A) d kwargs :
  total s → (∀ e, d ≠ DefaultFactory (Raise e)) →
  is_escape (field name s d kwargs) = false.
Proof.
  intros Hs Hd. unfold field. destruct (kwargs !! name).
  - by apply at_loc_no_escape.
  - destruct d as [| |[|e]]; try done. by destruct (Hd e).
Qed.

Lemma field_missing {A} name (s : schema A) kwargs :
  kwargs !! name = None → field name s Required kwargs = Invalid [([LField name], missing)].
Proof. unfold field. by intros ->. Qed.

Lemma field_absent {A} name (s : schema A) a kwargs :
  kwargs !! name = None → field name s (Default a) kwargs = Valid a.
Proof. unfold field. by intros ->. Qed.

Lemma str_schema_total : total str_schema.
Proof. by intros []. Qed.

Lemma dict_schema_total : total dict_schema.
Proof. by intros []. Qed.

Lemma secret_str_schema_total : total secret_str_schema.
Proof. by intros []. Qed.

Lemma lax_schema_total {A} (conv : value → option A) err : total (lax_schema conv err).
Proof. intros v. unfold lax_schema. by destruct (conv v). Qed.

Lemma nullable_total {A} (s : schema A) : total s → total (nullable s).
Proof.
  intros Hs v. unfold nullable.
  destruct v; try done; match goal with |- context [s ?v] => specialize (Hs v); by destruct (s v) end.
Qed.

Lemma field_str_Valid name d kwargs s :
  field name str_schema d kwargs = Valid s →
  kwargs !! name = Some (VStr s) ∨ (kwargs !! name = None ∧ d ≠ Required).
Proof.
  unfold field. destruct (kwargs !! name) as [v|].
  - destruct v; simpl; intros [=]; subst; auto.
  - destruct d; [done|auto..].
Qed.

Lemma field_optional_str_Valid name kwargs o :
  field name (nullable str_schema) (Default None) kwargs = Valid o →
  (kwargs !! name = None ∧ o = None) ∨ (kwargs !! name = Some VNone ∧ o = None)
  ∨ (∃ s, kwargs !! name = Some (VStr s) ∧ o = Some s).
Proof.
  unfold field. destruct (kwargs !! name) as [v|].
  - destruct v; simpl; intros [=]; subst; eauto.
  - intros [=]; subst; auto.
Qed.

End validation.

Create HintDb no_escape.

#[global] Hint Resolve ap_no_escape field_no_escape str_schema_total dict_schema_total
  secret_str_schema_total lax_schema_total nullable_total : no_escape.

(** ** Model descriptors *)

Section model_descriptor.
Context `{L : Lax}.

Lemma EliaChatModel_validate_no_escape kwargs :
  is_escape (EliaChatModel.validate kwargs) = false.
Proof.
  unfold EliaChatModel.validate, float_schema, int_schema, url_schema.
  repeat (apply ap_no_escape; [|by auto with no_escape]). done.
Qed.

(** What an accepted construction says about [name] and [id]. *)
Lemma EliaChatModel_new_inv kwargs m :
  EliaChatModel.new kwargs = Return m →
  kwargs !! "name" = Some (VStr (EliaChatModel.name m))
  ∧ ((id_unset kwargs ∧ (EliaChatModel.id m = None ∨ EliaChatModel.id m = Some ""))
     ∨ (∃ i, i ≠ "" ∧ kwargs !! "id" = Some (VStr i) ∧ EliaChatModel.id m = Some i)).
Proof.
  unfold EliaChatModel.new, init.
  destruct (EliaChatModel.validate kwargs) as [m'| |] eqn:Hv; intros [=]; subst m'.
  unfold EliaChatModel.validate in Hv.
  repeat (apply ap_Valid_inv in Hv as (? & ? & Hv & ? & ->)).
  injection Hv as <-. simpl.
  repeat match goal with H : field ?n _ _ _ = _ |- _ =>
    lazymatch n with "name" => fail | "id" => fail | _ => clear H end end.
  split.
  - match goal with H : field "name" _ _ _ = _ |- _ =>
      apply field_str_Valid in H as [?|[_ ?]]; done end.
  - match goal with H : field "id" _ _ _ = _ |- _ =>
      apply field_optional_str_Valid in H as [[? ->]|[[? ->]|(i & ? & ->)]] end.
    + left. unfold id_unset. auto.
    + left. unfold id_unset. auto.
    + destruct (decide (i = "")) as [->|]; [left|right; eauto].
      unfold id_unset. auto.
Qed.

(** C1, as the code has it: [lookup_key] is [id] when [id] is given as a
    non-empty string; it is [name] when [id] is left out, is [None] or is
    the empty string; and it is empty exactly when [name] is empty and [id]
    is one of those. Nothing makes [name] non-empty. *)
Theorem lookup_key_id_or_name kwargs m :
  EliaChatModel.new kwargs = Return m →
  ∃ n, kwargs !! "name" = Some (VStr n)
    ∧ (∀ i, kwargs !! "id" = Some (VStr i) → i ≠ "" → EliaChatModel.lookup_key m = i)
    ∧ (id_unset kwargs → EliaChatModel.lookup_key m = n)
    ∧ (EliaChatModel.lookup_key m = "" ↔ n = "" ∧ id_unset kwargs).
Proof.
  intros Hnew. apply EliaChatModel_new_inv in Hnew as [Hname Hid].
  exists (EliaChatModel.name m). split; [done|].
  unfold EliaChatModel.lookup_key.
  destruct Hid as [[Hu [Hid|Hid]]|(i & Hi & Hk & Hid)]; rewrite Hid; simpl.
  - split_and!; [|done|tauto].
    intros i Hk Hi. destruct Hu as [?|[?|?]]; congruence.
  - split_and!; [|done|tauto].
    intros i Hk Hi. destruct Hu as [?|[?|?]]; congruence.
  - assert (String.eqb i "" = false) as -> by by apply String.eqb_neq.
    assert (¬ id_unset kwargs) by (intros [?|[?|?]]; congruence).
    split_and!; [congruence|done|tauto].
Qed.

(** C8, as the code has it: a construction that gives no [name] fails with
    a validation error reporting [name] as missing; the empty string is
    accepted as a [name]. *)
Theorem name_required_not_non_empty :
  (∀ kwargs, kwargs !! "name" = None →
     ∃ errors, EliaChatModel.new kwargs
               = Raise (ValidationError "EliaChatModel" (([LField "name"], missing) :: errors)))
  ∧ ∃ m, EliaChatModel.new {[ "name" := VStr "" ]} = Return m ∧ EliaChatModel.name m = "".
Proof.
  split.
  - intros kwargs Hname. unfold EliaChatModel.new.
    destruct (ap_reports_first ([LField "name"], missing) (EliaChatModel.validate kwargs))
      as [errors ->]; [|by eauto].
    unfold EliaChatModel.validate, float_schema, int_schema, url_schema.
    do 10 (apply ap_reports; [|by auto with no_escape]).
    rewrite (field_missing _ _ _ Hname). by exists [].
  - eexists. split; [vm_compute; reflexivity|reflexivity].
Qed.

End model_descriptor.

(** C1 on a concrete input: a work account of [gpt-4o]. *)
Lemma lookup_key_id_or_name_witness :
  let kwargs : gmap string value := {[ "name" := VStr "gpt-4o"; "id" := VStr "work" ]} in
  let m :=
    {| EliaChatModel.name := "gpt-4o"; EliaChatModel.id := Some "work";
       EliaChatModel.display_name := None; EliaChatModel.provider := None;
       EliaChatModel.api_key := None; EliaChatModel.api_base := None;
       EliaChatModel.organization := None; EliaChatModel.description := None;
       EliaChatModel.product := None; EliaChatModel.temperature := 1%float;
       EliaChatModel.max_retries := 0%Z |} in
  EliaChatModel.new (H := exact_only) kwargs = Return m
  ∧ ∃ n, kwargs !! "name" = Some (VStr n)
    ∧ (∀ i, kwargs !! "id" = Some (VStr i) → i ≠ "" → EliaChatModel.lookup_key m = i)
    ∧ (id_unset kwargs → EliaChatModel.lookup_key m = n)
    ∧ (EliaChatModel.lookup_key m = "" ↔ n = "" ∧ id_unset kwargs).
Proof.
  intros kwargs m.
  assert (EliaChatModel.new (H := exact_only) kwargs = Return m) as Hm
    by (vm_compute; reflexivity).
  split; [exact Hm|].
  exact (lookup_key_id_or_name (L := exact_only) kwargs m Hm).
Defined.

(** ** The builtin catalog *)

(** The three provider lists do not depend on the library's conversions:
    every argument they pass already has the type of its field. *)
Lemma builtin_lists :
  ∃ openai anthropic google : list EliaChatModel.t,
    (∀ L : Lax,
       @get_builtin_openai_models L = Return openai
       ∧ @get_builtin_anthropic_models L = Return anthropic
       ∧ @get_builtin_google_models L = Return google
       ∧ @get_builtin_models L = Return (openai ++ anthropic ++ google)%list)
    ∧ EliaChatModel.id <$> (openai ++ anthropic ++ google)%list
      = [ Some "elia-gpt-4.1"; Some "elia-gpt-4o"; Some "elia-o4-mini";
          Some "elia-claude-3-7-sonnet-20250219"; Some "elia-claude-3-5-sonnet-20241022";
          Some "elia-claude-3-5-haiku-20241022";
          Some "elia-gemini-2.5-pro-preview-05-06"; Some "elia-gemini-2.5-flash-preview-05-20" ].
Proof.
  do 3 eexists. split.
  - intros L.
    pose proof (lax_float_exact float_0_7) as E. vm_compute in E.
    assert (@get_builtin_openai_models L = Return _) as Ho
      by (vm_compute; rewrite E; reflexivity).
    assert (@get_builtin_anthropic_models L = Return _) as Ha
      by (vm_compute; reflexivity).
    assert (@get_builtin_google_models L = Return _) as Hg
      by (vm_compute; reflexivity).
    split_and!; [exact Ho|exact Ha|exact Hg|].
    unfold get_builtin_models. rewrite Ho, Ha, Hg. reflexivity.
  - reflexivity.
Qed.

Lemma get_builtin_models_returns `{L : Lax} : ∃ builtin, get_builtin_models = Return builtin.
Proof. destruct builtin_lists as (o & a & g & H & _). destruct (H L) as (_ & _ & _ & ->). eauto. Qed.

(** C6: [get_builtin_models] takes no input and returns one fixed list, the
    concatenation of the OpenAI, the Anthropic and the Google list in that
    order; the [id]s of its entries are pairwise distinct. *)
Theorem get_builtin_models_fixed :
  ∃ openai anthropic google : list EliaChatModel.t,
    (∀ L : Lax,
       @get_builtin_openai_models L = Return openai
       ∧ @get_builtin_anthropic_models L = Return anthropic
       ∧ @get_builtin_google_models L = Return google
       ∧ @get_builtin_models L = Return (openai ++ anthropic ++ google)%list)
    ∧ EliaChatModel.id <$> (openai ++ anthropic ++ google)%list
      = [ Some "elia-gpt-4.1"; Some "elia-gpt-4o"; Some "elia-o4-mini";
          Some "elia-claude-3-7-sonnet-20250219"; Some "elia-claude-3-5-sonnet-20241022";
          Some "elia-claude-3-5-haiku-20241022";
          Some "elia-gemini-2.5-pro-preview-05-06"; Some "elia-gemini-2.5-flash-preview-05-20" ]
    ∧ (∀ i j x y,
         (openai ++ anthropic ++ google)%list !! i = Some x →
         (openai ++ anthropic ++ google)%list !! j = Some y →
         EliaChatModel.id x = EliaChatModel.id y → i = j).
Proof.
  destruct builtin_lists as (o & a & g & H & Hids).
  exists o, a, g. split; [exact H|].
  assert (NoDup (EliaChatModel.id <$> (o ++ a ++ g)%list)) as Hnd.
  { rewrite Hids. apply (bool_decide_unpack _). vm_compute. exact I. }
  split; [exact Hids|].
  intros i j x y Hi Hj Hxy.
  eapply NoDup_lookup; [exact Hnd| |].
    + rewrite list_lookup_fmap, Hi. reflexivity.
    + rewrite list_lookup_fmap, Hj, Hxy. reflexivity.
Qed.

(** ** Launch configuration *)

Lemma all_space_lstrip s : all_space (lstrip s) = all_space s.
Proof.
  induction s as [|c s IH]; simpl; [done|].
  destruct (isspace c) eqn:Hc; simpl; [done|]. by rewrite Hc.
Qed.

Lemma rstrip_empty s : String.eqb (rstrip s) "" = all_space s.
Proof.
  induction s as [|c s IH]; simpl; [done|].
  destruct (rstrip s); simpl in *; rewrite <- IH.
  - by destruct (isspace c).
  - by rewrite andb_false_r.
Qed.

(** [s.strip() == ""] says that [s] has only whitespace. *)
Lemma strip_empty s : String.eqb (strip s) "" = all_space s.
Proof. unfold strip. by rewrite rstrip_empty, all_space_lstrip. Qed.

Lemma non_empty_spec s :
  LaunchConfig.non_empty s
  = if all_space s then Raise (ValueError "system prompt must not be empty") else Return s.
Proof.
  unfold LaunchConfig.non_empty. rewrite strip_empty. simpl.
  destruct s; simpl; [done|]. by destruct (isspace _ && _).
Qed.

Section launch_config.
Context `{L : Lax}.

(** A construction that passes the system prompt [s] and nothing else. *)
Lemma construct_system_prompt p s :
  ∃ builtin, get_builtin_models = Return builtin ∧
  construct p {[ "system_prompt" := VStr s ]}
  = if all_space s
    then Raise (ValidationError "LaunchConfig"
                  [([LField "system_prompt"], value_error "system prompt must not be empty")])
    else Return {| LaunchConfig.default_model := "elia-gpt-4.1";
                   LaunchConfig.system_prompt := s;
                   LaunchConfig.message_code_theme := "monokai";
                   LaunchConfig.models := [];
                   LaunchConfig.builtin_models := builtin;
                   LaunchConfig.theme := "nebula" |}.
Proof.
  destruct get_builtin_models_returns as [builtin Hb]. exists builtin. split; [done|].
  unfold construct, LaunchConfig.new, LaunchConfig.validate.
  rewrite Hb.
  rewrite !field_absent by done.
  unfold field at 2 3. rewrite lookup_singleton_ne by done.
  unfold field. rewrite lookup_singleton_eq.
  unfold field_validator. simpl str_schema. cbv beta iota.
  rewrite non_empty_spec. by destruct (all_space s).
Qed.

(** C2: a construction with an empty or whitespace-only [system_prompt]
    raises a validation error; with ["hello"] it succeeds and the stored
    [system_prompt] is ["hello"]. The first part holds for every string
    made of whitespace, the second for every other string. *)
Theorem system_prompt_non_empty p :
  let rejected s :=
    construct p {[ "system_prompt" := VStr s ]}
    = Raise (ValidationError "LaunchConfig"
               [([LField "system_prompt"], value_error "system prompt must not be empty")]) in
  let accepted s :=
    ∃ c, construct p {[ "system_prompt" := VStr s ]} = Return c
         ∧ LaunchConfig.system_prompt c = s in
  rejected "" ∧ rejected "   " ∧ accepted "hello"
  ∧ (∀ s, all_space s = true → rejected s)
  ∧ (∀ s, all_space s = false → accepted s).
Proof.
  intros rejected accepted.
  assert (∀ s, all_space s = true → rejected s) as Hrej.
  { intros s Hs. unfold rejected.
    destruct (construct_system_prompt p s) as (b & _ & ->). by rewrite Hs. }
  assert (∀ s, all_space s = false → accepted s) as Hacc.
  { intros s Hs. unfold accepted.
    destruct (construct_system_prompt p s) as (b & _ & ->). rewrite Hs. eauto. }
  split_and!; [by apply Hrej|by apply Hrej|by apply Hacc|done|done].
Qed.

(** C3: a construction with no arguments succeeds with the defaults. The
    default of [system_prompt] is the one the class holds. *)
Theorem launch_config_defaults p :
  ∃ builtin, get_builtin_models = Return builtin ∧
  construct p ∅
  = Return {| LaunchConfig.default_model := "elia-gpt-4.1";
              LaunchConfig.system_prompt :=
                LaunchConfig.system_prompt_default (LaunchConfig_class p);
              LaunchConfig.message_code_theme := "monokai";
              LaunchConfig.models := [];
              LaunchConfig.builtin_models := builtin;
              LaunchConfig.theme := "nebula" |}.
Proof.
  destruct get_builtin_models_returns as [builtin Hb]. exists builtin. split; [done|].
  unfold construct, LaunchConfig.new, LaunchConfig.validate.
  rewrite Hb. reflexivity.
Qed.

Lemma env_steps_class p p' :
  rtc env_step p p' → LaunchConfig_class p' = LaunchConfig_class p.
Proof. induction 1 as [|p q r Hstep _ IH]; [done|]. rewrite IH. by destruct Hstep. Qed.


End launch_config.


(** ** Themes *)

Section themes.
Context `{L : Lax}.

(** C9: the colour system is made from every declared field of the theme
    but [name], each with the value the theme holds; the five names in the
    [exclude] argument are names of no field, so leaving the argument out
    gives the same keyword arguments. *)
Theorem to_color_system_fields (self : Theme.t) :
  Theme.to_color_system self
  = ColorSystem_init
      {[ "primary" := VStr (Theme.primary self);
         "secondary" := optional_str (Theme.secondary self);
         "background" := optional_str (Theme.background self);
         "surface" := optional_str (Theme.surface self);
         "panel" := optional_str (Theme.panel self);
         "warning" := optional_str (Theme.warning self);
         "error" := optional_str (Theme.error self);
         "success" := optional_str (Theme.success self);
         "accent" := optional_str (Theme.accent self);
         "dark" := VBool (Theme.dark self);
         "variables" := VDict (Theme.variables self) ]}
  ∧ Theme.model_dump self ∅ !! "name" = None
  ∧ Theme.fields self !! "name" = Some (VStr (Theme.name self))
  ∧ Theme.model_dump self {[ "text_area"; "syntax"; "variable"; "url"; "method" ]}
    = Theme.model_dump self ∅
  ∧ (∀ k : string, k ∈ ({[ "text_area"; "syntax"; "variable"; "url"; "method" ]} : gset string) →
       Theme.fields self !! k = None).
Proof.
  split_and!.
  - unfold Theme.to_color_system. f_equal; by vm_compute.
  - vm_compute. reflexivity.
  - vm_compute. reflexivity.
  - vm_compute. reflexivity.
  - intros k Hk. rewrite !elem_of_union, !elem_of_singleton in Hk.
    destruct Hk as [[[[->| ->]| ->]| ->]| ->]; vm_compute; reflexivity.
Qed.

Lemma Theme_validate_no_escape kwargs : is_escape (Theme.validate kwargs) = false.
Proof.
  unfold Theme.validate, bool_schema.
  repeat (apply ap_no_escape; [|by auto with no_escape]). done.
Qed.

(** [Theme(...)] raises nothing but its validation error. *)
Lemma Theme_new_raises kwargs e :
  Theme.new kwargs = Raise e → ∃ errors, e = ValidationError "Theme" errors.
Proof.
  unfold Theme.new, init. pose proof (Theme_validate_no_escape kwargs) as Hesc.
  destruct (Theme.validate kwargs); [done| |done]. intros [= <-]. eauto.
Qed.

(** An accepted theme has the string given as [name]. *)
Lemma Theme_new_name kwargs t :
  Theme.new kwargs = Return t → kwargs !! "name" = Some (VStr (Theme.name t)).
Proof.
  unfold Theme.new, init.
  destruct (Theme.validate kwargs) as [t'| |] eqn:Hv; intros [=]; subst t'.
  unfold Theme.validate in Hv.
  repeat (apply ap_Valid_inv in Hv as (? & ? & Hv & ? & ->)).
  injection Hv as <-. simpl.
  match goal with H : field "name" _ _ _ = _ |- _ =>
    apply field_str_Valid in H as [?|[_ ?]]; done end.
Qed.

(** A theme without [name] is refused by [Theme(...)] itself. *)
Lemma Theme_new_missing_name kwargs :
  kwargs !! "name" = None →
  ∃ errors, Theme.new kwargs = Raise (ValidationError "Theme" (([LField "name"], missing) :: errors)).
Proof.
  intros Hname. unfold Theme.new.
  destruct (ap_reports_first ([LField "name"], missing) (Theme.validate kwargs))
    as [errors ->]; [|by eauto].
  unfold Theme.validate, bool_schema.
  do 11 (apply ap_reports; [|by auto with no_escape]).
  rewrite (field_missing _ _ _ Hname). by exists [].
Qed.

Lemma py_or_dict d : py_or (VDict d) (VDict ∅) = VDict d.
Proof.
  unfold py_or. simpl. destruct (map_to_list d) eqn:Hd; [|done].
  by apply map_to_list_empty_iff in Hd as ->.
Qed.

Lemma load_theme_file_accepts themes f d t :
  yaml_load f = Return (VDict d) → Theme.new d = Return t →
  load_theme_file themes f = Return (<[Theme.name t := t]> themes).
Proof.
  intros Hload Hnew. unfold load_theme_file. rewrite Hload. simpl.
  rewrite py_or_dict. simpl. rewrite Hnew. simpl.
  by rewrite (Theme_new_name _ _ Hnew).
Qed.

Lemma load_theme_file_rejects themes f d e :
  yaml_load f = Return (VDict d) → Theme.new d = Raise e →
  load_theme_file themes f = Raise e.
Proof.
  intros Hload Hnew. unfold load_theme_file. rewrite Hload. simpl.
  rewrite py_or_dict. simpl. rewrite Hnew. simpl.
  by destruct (Theme_new_raises _ _ Hnew) as [errors ->].
Qed.

Lemma load_themes_loop_app themes l1 l2 :
  load_themes_loop themes (l1 ++ l2)
  = (themes' ← load_themes_loop themes l1; load_themes_loop themes' l2).
Proof.
  revert themes. induction l1 as [|f l1 IH]; intros themes; simpl; [done|].
  destruct (_ || _); [|by apply IH].
  destruct (load_theme_file themes f); simpl; [by apply IH|done].
Qed.

(** The [except KeyError] clause is never entered for a mapping: a
    document without [name] is refused by [Theme(...)], which runs before
    the subscript [theme_content["name"]]. *)
Lemma load_theme_file_missing_name themes f d :
  yaml_load f = Return (VDict d) → d !! "name" = None →
  ∃ errors, load_theme_file themes f
            = Raise (ValidationError "Theme" (([LField "name"], missing) :: errors)).
Proof.
  intros Hload Hname. destruct (Theme_new_missing_name d Hname) as [errors Hnew].
  exists errors. by apply load_theme_file_rejects with d.
Qed.

(** C10: a theme file whose document has a [name] but is refused by the
    [Theme] schema makes [load_user_themes] raise the very error of
    [Theme(...)], a validation error that depends on the document alone;
    it is not the [ValueError] with the file's path. *)
Theorem schema_error_unmodified pre f post themes d e :
  load_themes_loop ∅ pre = Return themes →
  suffix f = ".yaml" ∨ suffix f = ".yml" →
  yaml_load f = Return (VDict d) →
  is_Some (d !! "name") →
  Theme.new d = Raise e →
  load_user_themes (pre ++ f :: post) = Raise e
  ∧ (∃ errors, e = ValidationError "Theme" errors)
  ∧ e ≠ ValueError (invalid_theme_file (path f)).
Proof.
  intros Hpre Hsuffix Hload _ Hnew.
  destruct (Theme_new_raises _ _ Hnew) as [errors ->].
  split_and!; [|by eauto|done].
  unfold load_user_themes. rewrite load_themes_loop_app, Hpre. simpl.
  assert (String.eqb (suffix f) ".yaml" || String.eqb (suffix f) ".yml" = true) as ->.
  { destruct Hsuffix as [-> | ->]; reflexivity. }
  by rewrite (load_theme_file_rejects _ _ _ _ Hload Hnew).
Qed.

(** C7 at two inputs: a theme file whose document has no [name], and an
    empty file. Both make [load_user_themes] raise the validation error of
    [Theme(...)]; the [ValueError] that names the path is not raised. *)
Theorem missing_name_error_without_path :
  load_user_themes
    [ {| path := "/home/user/.config/elia/themes/broken.yaml"; suffix := ".yaml";
         yaml_load := Return (VDict {[ "primary" := VStr "#112233"; "variables" := VDict ∅ ]}) |} ]
  = Raise (ValidationError "Theme" [([LField "name"], missing)])
  ∧ load_user_themes
      [ {| path := "/home/user/.config/elia/themes/empty.yml"; suffix := ".yml";
           yaml_load := Return VNone |} ]
    = Raise (ValidationError "Theme"
               [([LField "name"], missing); ([LField "primary"], missing);
                ([LField "variables"], missing)])
  ∧ load_user_themes
      [ {| path := "/home/user/.config/elia/themes/broken.yaml"; suffix := ".yaml";
           yaml_load := Return (VDict {[ "primary" := VStr "#112233"; "variables" := VDict ∅ ]}) |} ]
    ≠ Raise (ValueError (invalid_theme_file "/home/user/.config/elia/themes/broken.yaml")).
Proof.
  assert (∀ a b (x : result (gmap string Theme.t)), x = Raise (ValidationError a b) →
            ∀ msg, x ≠ Raise (ValueError msg)) as Hne by (by intros a b x -> msg).
  split_and!; [vm_compute; reflexivity..|].
  eapply Hne. vm_compute. reflexivity.
Qed.



End themes.

(** ** Concrete runs *)

(** C1 is not what the code does. With [id=""] the [id] is set and the
    key is the [name]; with [name=""] and no [id] the key is empty. *)
Lemma lookup_key_counterexample :
  (∃ m, EliaChatModel.new (H := exact_only) {[ "name" := VStr "gpt-4o"; "id" := VStr "" ]}
        = Return m
        ∧ EliaChatModel.id m = Some ""
        ∧ EliaChatModel.lookup_key m = "gpt-4o")
  ∧ (∃ m, EliaChatModel.new (H := exact_only) {[ "name" := VStr "" ]} = Return m
          ∧ EliaChatModel.lookup_key m = "").
Proof. split; eexists; (split; [vm_compute; reflexivity|done]). Qed.

(** C8 is not what the code does: [EliaChatModel(name="")] is accepted. *)
Lemma empty_name_counterexample :
  EliaChatModel.new (H := exact_only) {[ "name" := VStr "" ]}
  = Return {| EliaChatModel.name := ""; EliaChatModel.id := None;
              EliaChatModel.display_name := None; EliaChatModel.provider := None;
              EliaChatModel.api_key := None; EliaChatModel.api_base := None;
              EliaChatModel.organization := None; EliaChatModel.description := None;
              EliaChatModel.product := None; EliaChatModel.temperature := 1%float;
              EliaChatModel.max_retries := 0%Z |}.
Proof. vm_compute. reflexivity. Qed.




(** C10 on a concrete directory: a good theme, then one with a [name] and
    nothing else. *)
Lemma schema_error_unmodified_witness :
  let good :=
    {| path := "/home/user/.config/elia/themes/foo.yaml"; suffix := ".yaml";
       yaml_load := Return (VDict {[ "name" := VStr "foo"; "primary" := VStr "#112233";
                                     "variables" := VDict ∅ ]}) |} in
  let bad :=
    {| path := "/home/user/.config/elia/themes/bar.yaml"; suffix := ".yaml";
       yaml_load := Return (VDict {[ "name" := VStr "bar" ]}) |} in
  let e := ValidationError "Theme"
             [([LField "primary"], missing); ([LField "variables"], missing)] in
  load_user_themes (H := exact_only) ([good] ++ bad :: []) = Raise e
  ∧ (∃ errors, e = ValidationError "Theme" errors)
  ∧ e ≠ ValueError (invalid_theme_file (path bad)).
Proof.
  intros good bad e.
  assert (∃ themes, load_themes_loop (H := exact_only) ∅ [good] = Return themes)
    as [themes Hpre] by (eexists; vm_compute; reflexivity).
  apply (schema_error_unmodified (L := exact_only) [good] bad [] themes
           {[ "name" := VStr "bar" ]} e Hpre).
  - left. reflexivity.
  - reflexivity.
  - exists (VStr "bar"). reflexivity.
  - vm_compute. reflexivity.
Defined.

(** * Further properties *)

(** ** Keyword arguments and fields *)

Section keyword_arguments.
Context `{L : Lax}.

Lemma field_insert_ne {A} name (s : schema A) d k v kwargs :
  name ≠ k → field name s d (<[k := v]> kwargs) = field name s d kwargs.
Proof. intros Hne. unfold field. by rewrite lookup_insert_ne. Qed.

Lemma field_lookup {A} name (s : schema A) d kwargs v :
  kwargs !! name = Some v → field name s d kwargs = at_loc (LField name) (s v).
Proof. unfold field. by intros ->. Qed.

Lemma nullable_optional_str item o :
  at_loc item (nullable str_schema (optional_str o)) = Valid o.
Proof. by destruct o. Qed.

(** X1: A theme file may carry keys that name no field of [Theme], such as
    the [syntax] or [text_area] of other versions: the key and its value
    are ignored. *)
Theorem Theme_ignores_unknown_key k v kwargs :
  k ∉ Theme_field_names → Theme.new (<[k := v]> kwargs) = Theme.new kwargs.
Proof.
  intros Hk.
  assert (∀ n, n ∈ Theme_field_names → n ≠ k) as Hne by (by intros n Hn ->).
  unfold Theme.new, Theme.validate.
  rewrite !field_insert_ne; first done;
    apply Hne, (bool_decide_unpack _); vm_compute; exact I.
Qed.

(** X2: The same for a model descriptor: a keyword that names none of its
    eleven fields changes nothing. *)
Theorem EliaChatModel_ignores_unknown_key k v kwargs :
  k ∉ EliaChatModel_field_names → EliaChatModel.new (<[k := v]> kwargs) = EliaChatModel.new kwargs.
Proof.
  intros Hk.
  assert (∀ n, n ∈ EliaChatModel_field_names → n ≠ k) as Hne by (by intros n Hn ->).
  unfold EliaChatModel.new, EliaChatModel.validate.
  rewrite !field_insert_ne; first done;
    apply Hne, (bool_decide_unpack _); vm_compute; exact I.
Qed.

(** X3: [model_dump] leaves [name] out, so a dump is not enough to build the
    theme again: [Theme(...)] on it reports [name] as missing, and nothing
    else. With the [name] put back, the theme built is the one dumped. *)
Theorem Theme_dump_rebuild (self : Theme.t) :
  Theme.new (Theme.model_dump self ∅)
  = Raise (ValidationError "Theme" [([LField "name"], missing)])
  ∧ Theme.new (<["name" := VStr (Theme.name self)]> (Theme.model_dump self ∅)) = Return self.
Proof.
  destruct self as [n p o1 o2 o3 o4 o5 o6 o7 o8 b vars].
  unfold Theme.new, Theme.validate, bool_schema, lax_schema.
  split.
  - rewrite (field_missing "name") by (vm_compute; reflexivity).
    do 11 (erewrite field_lookup by reflexivity).
    rewrite !nullable_optional_str. simpl. by rewrite lax_bool_exact.
  - do 12 (erewrite field_lookup by reflexivity).
    rewrite !nullable_optional_str. simpl. by rewrite lax_bool_exact.
Qed.

End keyword_arguments.

(** An unknown key on a concrete theme. *)
Lemma Theme_ignores_unknown_key_witness :
  Theme.new (H := exact_only)
    (<["syntax" := VStr "dracula"]>
       {[ "name" := VStr "foo"; "primary" := VStr "#112233"; "variables" := VDict ∅ ]})
  = Theme.new (H := exact_only)
      {[ "name" := VStr "foo"; "primary" := VStr "#112233"; "variables" := VDict ∅ ]}.
Proof.
  apply (Theme_ignores_unknown_key (L := exact_only)).
  apply (bool_decide_unpack _). vm_compute. exact I.
Defined.

(** An unknown keyword on a concrete model descriptor. *)
Lemma EliaChatModel_ignores_unknown_key_witness :
  EliaChatModel.new (H := exact_only)
    (<["max_tokens" := VInt 4096]> {[ "name" := VStr "gpt-4o" ]})
  = EliaChatModel.new (H := exact_only) {[ "name" := VStr "gpt-4o" ]}.
Proof.
  apply (EliaChatModel_ignores_unknown_key (L := exact_only)).
  apply (bool_decide_unpack _). vm_compute. exact I.
Defined.

(** ** The theme loader *)

Section loader.
Context `{L : Lax}.

Lemma Theme_new_empty :
  Theme.new ∅
  = Raise (ValidationError "Theme"
             [([LField "name"], missing); ([LField "primary"], missing);
              ([LField "variables"], missing)]).
Proof. vm_compute. reflexivity. Qed.

(** A document that is false stands for the empty mapping. *)
Lemma load_theme_file_falsy themes f v :
  yaml_load f = Return v → truthy v = false →
  load_theme_file themes f
  = Raise (ValidationError "Theme"
             [([LField "name"], missing); ([LField "primary"], missing);
              ([LField "variables"], missing)]).
Proof.
  intros Hload Hv. unfold load_theme_file. rewrite Hload. simpl.
  unfold py_or. rewrite Hv. simpl. by rewrite Theme_new_empty.
Qed.

(** A document that is true and is no mapping cannot follow [**]. *)
Lemma load_theme_file_not_mapping themes f v :
  yaml_load f = Return v → truthy v = true → (∀ d, v ≠ VDict d) →
  load_theme_file themes f = Raise (TypeError "argument after ** must be a mapping").
Proof.
  intros Hload Hv Hd. unfold load_theme_file. rewrite Hload. simpl.
  unfold py_or. rewrite Hv. destruct v; try done. by destruct (Hd d).
Qed.

(** What one file can do to the loop when opening and parsing it went
    well: store the theme it holds, or raise the validation error of
    [Theme(...)], or raise the [TypeError] of [**]. *)
Lemma load_theme_file_outcome themes f v :
  yaml_load f = Return v →
  (∃ t, holds_theme f t ∧ load_theme_file themes f = Return (<[Theme.name t := t]> themes))
  ∨ (∃ errors, load_theme_file themes f = Raise (ValidationError "Theme" errors))
  ∨ (∃ msg, load_theme_file themes f = Raise (TypeError msg)).
Proof.
  intros Hload. destruct (truthy v) eqn:Hv.
  - assert ((∃ d, v = VDict d) ∨ (∀ d, v ≠ VDict d)) as [[d ->]|Hd]
      by (destruct v; eauto; by right).
    + destruct (Theme.new d) as [t|e] eqn:Hnew.
      * left. exists t. split; [by exists d|]. by apply load_theme_file_accepts with d.
      * right. left. destruct (Theme_new_raises _ _ Hnew) as [errors ->].
        exists errors. by apply load_theme_file_rejects with d.
    + right. right. eexists. by apply load_theme_file_not_mapping with v.
  - right. left. eexists. by apply load_theme_file_falsy with v.
Qed.

Lemma load_theme_file_Return themes f themes' :
  load_theme_file themes f = Return themes' →
  ∃ t, holds_theme f t ∧ themes' = <[Theme.name t := t]> themes.
Proof.
  intros Hret. destruct (yaml_load f) as [v|e] eqn:Hload.
  - destruct (load_theme_file_outcome themes f v Hload)
      as [(t & Ht & Heq)|[[errors Heq]|[msg Heq]]]; rewrite Heq in Hret; [|done..].
    injection Hret as <-. eauto.
  - unfold load_theme_file in Hret. by rewrite Hload in Hret.
Qed.

Lemma load_themes_loop_cons themes f rest :
  load_themes_loop themes (f :: rest)
  = if theme_suffix f
    then themes' ← load_theme_file themes f; load_themes_loop themes' rest
    else load_themes_loop themes rest.
Proof. reflexivity. Qed.

Lemma load_themes_loop_filter themes listing :
  load_themes_loop themes listing = load_themes_loop themes (List.filter theme_suffix listing).
Proof.
  revert themes. induction listing as [|f rest IH]; intros themes; [done|].
  simpl List.filter. rewrite load_themes_loop_cons.
  destruct (theme_suffix f) eqn:Hf; [|by apply IH].
  rewrite load_themes_loop_cons, Hf.
  destruct (load_theme_file themes f); simpl; [by apply IH|done].
Qed.

(** X4: Entries of the directory whose suffix is neither [.yaml] nor [.yml]
    play no part: they are not opened, and the outcome is that of the
    directory without them. *)
Theorem load_user_themes_other_suffixes listing :
  load_user_themes listing = load_user_themes (List.filter theme_suffix listing).
Proof. apply load_themes_loop_filter. Qed.

Lemma load_themes_loop_keys themes0 listing themes :
  load_themes_loop themes0 listing = Return themes →
  ∀ k t, themes !! k = Some t →
    themes0 !! k = Some t
    ∨ (Theme.name t = k ∧ ∃ f, f ∈ listing ∧ theme_suffix f = true ∧ holds_theme f t).
Proof.
  revert themes0. induction listing as [|f rest IH]; intros themes0 Hloop k t Hk.
  - injection Hloop as <-. by left.
  - rewrite load_themes_loop_cons in Hloop. destruct (theme_suffix f) eqn:Hf.
    + destruct (load_theme_file themes0 f) as [themes1|e] eqn:Hfile; [|done].
      simpl in Hloop. destruct (IH _ Hloop k t Hk) as [H1|(Hn & f' & Hin & Hs & Hh)].
      * apply load_theme_file_Return in Hfile as (t1 & Ht1 & ->).
        destruct (decide (Theme.name t1 = k)) as [<-|Hne].
        -- rewrite lookup_insert_eq in H1. injection H1 as <-.
           right. split; [done|]. exists f. split; [left|done].
        -- rewrite lookup_insert_ne in H1 by done. by left.
      * right. split; [done|]. exists f'. split; [by right|done].
    + destruct (IH _ Hloop k t Hk) as [H1|(Hn & f' & Hin & Hs & Hh)]; [by left|].
      right. split; [done|]. exists f'. split; [by right|done].
Qed.

(** X5: Every theme of a loaded mapping is stored under its own [name], and
    is the theme that some [.yaml] or [.yml] file of the directory holds. *)
Theorem loaded_themes_keyed_by_name listing themes :
  load_user_themes listing = Return themes →
  ∀ k t, themes !! k = Some t →
    Theme.name t = k ∧ ∃ f, f ∈ listing ∧ theme_suffix f = true ∧ holds_theme f t.
Proof.
  intros Hload k t Hk.
  destruct (load_themes_loop_keys ∅ listing themes Hload k t Hk) as [H|H]; [|done].
  by rewrite lookup_empty in H.
Qed.

Lemma load_themes_loop_untouched themes0 listing themes n :
  load_themes_loop themes0 listing = Return themes →
  (∀ f t, f ∈ listing → theme_suffix f = true → holds_theme f t → Theme.name t ≠ n) →
  themes !! n = themes0 !! n.
Proof.
  revert themes0. induction listing as [|f rest IH]; intros themes0 Hloop Hother.
  - by injection Hloop as <-.
  - rewrite load_themes_loop_cons in Hloop. destruct (theme_suffix f) eqn:Hf.
    + destruct (load_theme_file themes0 f) as [themes1|e] eqn:Hfile; [|done].
      simpl in Hloop. rewrite (IH _ Hloop) by (intros f' t' Hin; apply Hother; by right).
      apply load_theme_file_Return in Hfile as (t1 & Ht1 & ->).
      apply lookup_insert_ne. apply (Hother f t1); [left|done|done].
    + apply (IH _ Hloop). intros f' t' Hin. apply Hother. by right.
Qed.

(** X6: When two files give the same [name], the one met later in the
    directory wins: a loaded mapping has, under the name of a file's
    theme, that theme, as soon as no later file holds a theme of the same
    name. *)
Theorem later_theme_wins before f after themes t :
  load_user_themes (before ++ f :: after) = Return themes →
  theme_suffix f = true →
  holds_theme f t →
  (∀ f' t', f' ∈ after → theme_suffix f' = true → holds_theme f' t' →
     Theme.name t' ≠ Theme.name t) →
  themes !! Theme.name t = Some t.
Proof.
  intros Hload Hf (d & Hd & Hnew) Hafter.
  unfold load_user_themes in Hload. rewrite load_themes_loop_app in Hload.
  destruct (load_themes_loop ∅ before) as [themes1|e]; [|done].
  change (load_themes_loop themes1 (f :: after) = Return themes) in Hload.
  rewrite load_themes_loop_cons, Hf in Hload.
  rewrite (load_theme_file_accepts _ _ _ _ Hd Hnew) in Hload.
  change (load_themes_loop (<[Theme.name t := t]> themes1) after = Return themes) in Hload.
  rewrite (load_themes_loop_untouched _ _ _ _ Hload Hafter).
  apply lookup_insert_eq.
Qed.

Lemma load_themes_loop_first_failure before f after themes e :
  load_themes_loop ∅ before = Return themes →
  theme_suffix f = true →
  load_theme_file themes f = Raise e →
  load_user_themes (before ++ f :: after) = Raise e.
Proof.
  intros Hpre Hf Hfile. unfold load_user_themes.
  rewrite load_themes_loop_app, Hpre.
  change (load_themes_loop themes (f :: after) = Raise e).
  by rewrite load_themes_loop_cons, Hf, Hfile.
Qed.

(** X7: [yaml.load(...) or {}]: a theme file whose document is false (an empty
    file, an empty mapping or list, an empty string, zero, [false]) is
    read as the empty mapping, and the loader raises the validation error
    that reports [name], [primary] and [variables] as missing. *)
Theorem falsy_document_read_as_empty before f after themes v :
  load_themes_loop ∅ before = Return themes →
  theme_suffix f = true →
  yaml_load f = Return v →
  truthy v = false →
  load_user_themes (before ++ f :: after)
  = Raise (ValidationError "Theme"
             [([LField "name"], missing); ([LField "primary"], missing);
              ([LField "variables"], missing)]).
Proof.
  intros Hpre Hf Hload Hv. apply load_themes_loop_first_failure with themes; [done..|].
  by apply load_theme_file_falsy with v.
Qed.

(** X8: A theme file whose document is true but no mapping (a list, a number,
    a plain string) makes the loader raise a [TypeError]: it is neither a
    validation error nor the error that names the file. *)
Theorem non_mapping_document_type_error before f after themes v :
  load_themes_loop ∅ before = Return themes →
  theme_suffix f = true →
  yaml_load f = Return v →
  truthy v = true →
  (∀ d, v ≠ VDict d) →
  ∃ msg, load_user_themes (before ++ f :: after) = Raise (TypeError msg).
Proof.
  intros Hpre Hf Hload Hv Hd. eexists.
  apply load_themes_loop_first_failure with themes; [done..|].
  by apply load_theme_file_not_mapping with v.
Qed.

(** X9: Opening and parsing a file happen outside the [try]: an exception
    they raise, whatever its class, leaves the loader unchanged, and the
    files after it are not read. *)
Theorem open_or_parse_error_propagates before f after themes e :
  load_themes_loop ∅ before = Return themes →
  theme_suffix f = true →
  yaml_load f = Raise e →
  load_user_themes (before ++ f :: after) = Raise e.
Proof.
  intros Hpre Hf Hload. apply load_themes_loop_first_failure with themes; [done..|].
  unfold load_theme_file. by rewrite Hload.
Qed.

Lemma load_themes_loop_outcome themes0 listing :
  (∀ f, f ∈ listing → theme_suffix f = true → ∃ v, yaml_load f = Return v) →
  (∃ themes, load_themes_loop themes0 listing = Return themes)
  ∨ (∃ errors, load_themes_loop themes0 listing = Raise (ValidationError "Theme" errors))
  ∨ (∃ msg, load_themes_loop themes0 listing = Raise (TypeError msg)).
Proof.
  revert themes0. induction listing as [|f rest IH]; intros themes0 Hall.
  - left. by eexists.
  - assert (∀ f', f' ∈ rest → theme_suffix f' = true → ∃ v, yaml_load f' = Return v)
      as Hrest by (intros f' Hin; apply Hall; by right).
    rewrite load_themes_loop_cons. destruct (theme_suffix f) eqn:Hf; [|by apply IH].
    destruct (Hall f) as [v Hv]; [left|done|].
    destruct (load_theme_file_outcome themes0 f v Hv)
      as [(t & _ & ->)|[[errors ->]|[msg ->]]]; simpl; [by apply IH|eauto..].
Qed.

(** X10: When every theme file opens and parses, the loader returns a mapping
    or raises the validation error of [Theme(...)] or a [TypeError]. The
    [ValueError] of its [except KeyError] clause is never raised, for no
    path and no directory. *)
Theorem loader_outcomes listing :
  (∀ f, f ∈ listing → theme_suffix f = true → ∃ v, yaml_load f = Return v) →
  ((∃ themes, load_user_themes listing = Return themes)
   ∨ (∃ errors, load_user_themes listing = Raise (ValidationError "Theme" errors))
   ∨ (∃ msg, load_user_themes listing = Raise (TypeError msg)))
  ∧ (∀ msg, load_user_themes listing ≠ Raise (ValueError msg))
  ∧ (∀ key, load_user_themes listing ≠ Raise (KeyError key)).
Proof.
  intros Hall. pose proof (load_themes_loop_outcome ∅ listing Hall) as Hout.
  split; [exact Hout|].
  unfold load_user_themes.
  split; intros x; destruct Hout as [[? ->]|[[? ->]|[? ->]]]; done.
Qed.

End loader.

(** ** Launch configurations in general *)

Section configurations.
Context `{L : Lax}.

Lemma at_loc_Valid_inv {A} item (x : validated A) a : at_loc item x = Valid a → x = Valid a.
Proof. by destruct x. Qed.

(** What an accepted construction says about each field. *)
Lemma LaunchConfig_new_inv p kwargs c :
  construct p kwargs = Return c →
  field "system_prompt" (field_validator str_schema LaunchConfig.non_empty)
    (Default (LaunchConfig.system_prompt_default (LaunchConfig_class p))) kwargs
  = Valid (LaunchConfig.system_prompt c)
  ∧ field "models" (list_schema (model_schema EliaChatModel.validate))
      (DefaultFactory (Return [])) kwargs
    = Valid (LaunchConfig.models c)
  ∧ field "builtin_models" (list_schema (model_schema EliaChatModel.validate))
      (DefaultFactory get_builtin_models) kwargs
    = Valid (LaunchConfig.builtin_models c).
Proof.
  unfold construct, LaunchConfig.new, init.
  destruct (LaunchConfig.validate _ kwargs) as [c'| |] eqn:Hv; intros [=]; subst c'.
  unfold LaunchConfig.validate in Hv.
  repeat (apply ap_Valid_inv in Hv as (? & ? & Hv & ? & ->)).
  injection Hv as <-. simpl. done.
Qed.

(** X11: A [system_prompt] passed to the constructor of an accepted
    configuration is a string with a character that is no whitespace, and
    the configuration stores it as passed, whitespace around it
    included. *)
Theorem explicit_system_prompt_kept p kwargs c v :
  kwargs !! "system_prompt" = Some v →
  construct p kwargs = Return c →
  ∃ s, v = VStr s ∧ all_space s = false ∧ LaunchConfig.system_prompt c = s.
Proof.
  intros Hk Hc. apply LaunchConfig_new_inv in Hc as (Hsp & _ & _).
  rewrite (field_lookup _ _ _ _ _ Hk) in Hsp. apply at_loc_Valid_inv in Hsp.
  unfold field_validator in Hsp. destruct v; try done. simpl in Hsp.
  rewrite non_empty_spec in Hsp. destruct (all_space s) eqn:Hs; [done|].
  injection Hsp as <-. eauto.
Qed.

(** X12: Without a [system_prompt] argument the configuration has the text
    that the environment gave when [elia_chat.config] was imported, or the
    fallback text when the variable was not set then; the other arguments
    and later changes of the environment do not matter. *)
Theorem default_system_prompt_from_import environ p kwargs c :
  rtc env_step (import_config environ) p →
  kwargs !! "system_prompt" = None →
  construct p kwargs = Return c →
  LaunchConfig.system_prompt c
  = match environ !! "ELIA_SYSTEM_PROMPT" with
    | Some s => s
    | None => "You are a helpful assistant named Elia."
    end.
Proof.
  intros Hsteps Hk Hc. apply LaunchConfig_new_inv in Hc as (Hsp & _ & _).
  rewrite (field_absent _ _ _ _ Hk) in Hsp. injection Hsp as <-.
  by rewrite (env_steps_class _ _ Hsteps).
Qed.

(** X13: The validator does not run on the default: whatever the variable
    holds at import, the empty string or blanks included,
    [LaunchConfig.get_current()] succeeds and has it as [system_prompt]. *)
Theorem blank_default_system_prompt_accepted environ s :
  environ !! "ELIA_SYSTEM_PROMPT" = Some s →
  ∃ c, LaunchConfig.get_current (LaunchConfig.class_body environ) = Return c
       ∧ LaunchConfig.system_prompt c = s.
Proof.
  intros Henv. destruct get_builtin_models_returns as [builtin Hb].
  unfold LaunchConfig.get_current, LaunchConfig.new, LaunchConfig.validate. rewrite Hb.
  eexists. split; [reflexivity|]. simpl. unfold getenv. by rewrite Henv.
Qed.

(** X14: A construction that does not pass [builtin_models] gets the builtin
    catalog, whatever else it passes: [all_models] is the user's models
    followed by the list of [get_builtin_models]. *)
Theorem builtin_models_is_catalog p kwargs c :
  kwargs !! "builtin_models" = None →
  construct p kwargs = Return c →
  ∃ builtin, get_builtin_models = Return builtin
    ∧ LaunchConfig.builtin_models c = builtin
    ∧ LaunchConfig.all_models c = (LaunchConfig.models c ++ builtin)%list.
Proof.
  intros Hk Hc. apply LaunchConfig_new_inv in Hc as (_ & _ & Hb).
  unfold field in Hb. rewrite Hk in Hb.
  destruct get_builtin_models as [builtin|e]; [|done]. injection Hb as Hb.
  exists builtin. unfold LaunchConfig.all_models. by rewrite <- Hb.
Qed.

Lemma list_items_Valid_inv {A} (s : schema A) i l ms :
  list_items s i l = Valid ms → Forall2 (λ v m, s v = Valid m) l ms.
Proof.
  revert i ms. induction l as [|v l IH]; intros i ms; simpl.
  - intros [= <-]. constructor.
  - intros Hap. apply ap_Valid_inv in Hap as (g & tl & Hhd & Htl & ->).
    destruct (at_loc (LIndex i) (s v)) as [m| |] eqn:Hm; try done.
    injection Hhd as <-. apply at_loc_Valid_inv in Hm.
    constructor; [done|]. by apply IH with (S i).
Qed.

(** X15: The models that the user declares are validated one by one and kept
    in the order given: the [models] of an accepted configuration are the
    model descriptors built from the mappings of the list passed. *)
Theorem models_validated_in_order p kwargs c l :
  kwargs !! "models" = Some (VList l) →
  construct p kwargs = Return c →
  Forall2 (λ v m, ∃ d, v = VDict d ∧ EliaChatModel.new d = Return m) l (LaunchConfig.models c).
Proof.
  intros Hk Hc. apply LaunchConfig_new_inv in Hc as (_ & Hm & _).
  rewrite (field_lookup _ _ _ _ _ Hk) in Hm. apply at_loc_Valid_inv in Hm.
  apply list_items_Valid_inv in Hm.
  eapply Forall2_impl; [exact Hm|]. intros v m Hv. simpl in Hv.
  destruct v; try done. exists d. split; [done|].
  unfold EliaChatModel.new. simpl in Hv. by rewrite Hv.
Qed.

Lemma ap_reports_left {A B} le (f : validated (A → B)) x :
  reports le f → is_escape x = false → reports le (f <*> x).
Proof.
  intros (es & -> & Hin) Hx. unfold reports.
  destruct x as [a|es2|e]; simpl in *; [by eauto| |done].
  exists (es ++ es2)%list. split; [done|]. apply elem_of_app. by left.
Qed.

Lemma ap_reports_right {A B} le (f : validated (A → B)) x :
  is_escape f = false → reports le x → reports le (f <*> x).
Proof.
  intros Hf (es & -> & Hin). unfold reports.
  destruct f as [g|es1|e]; simpl in *; [by eauto| |done].
  exists (es1 ++ es)%list. split; [done|]. apply elem_of_app. by right.
Qed.

Lemma at_loc_reports {A} item loc ty (x : validated A) :
  reports (loc, ty) x → reports (item :: loc, ty) (at_loc item x).
Proof.
  intros (es & -> & Hin). eexists. split; [reflexivity|].
  apply list_elem_of_fmap. by exists (loc, ty).
Qed.

Lemma vmap_reports {A B} (g : A → B) le x : reports le x → reports le (vmap g x).
Proof. intros (es & -> & Hin). by exists es. Qed.

Lemma vmap_no_escape {A B} (g : A → B) x : is_escape x = false → is_escape (vmap g x) = false.
Proof. by destruct x. Qed.

Lemma list_items_no_escape {A} (s : schema A) i l :
  total s → is_escape (list_items s i l) = false.
Proof.
  intros Hs. revert i. induction l as [|v l IH]; intros i; simpl; [done|].
  apply ap_no_escape; [|by apply IH]. by apply vmap_no_escape, at_loc_no_escape.
Qed.

Lemma list_items_reports {A} (s : schema A) i l j v loc ty :
  total s → l !! j = Some v → reports (loc, ty) (s v) →
  reports (LIndex (i + j) :: loc, ty) (list_items s i l).
Proof.
  intros Hs. revert i j. induction l as [|w l IH]; intros i j Hj Hv; [done|].
  simpl. destruct j as [|j]; simpl in Hj.
  - injection Hj as ->. rewrite Nat.add_0_r.
    apply ap_reports_left; [|by apply list_items_no_escape].
    by apply vmap_reports, at_loc_reports.
  - replace (i + S j) with (S i + j) by lia.
    apply ap_reports_right; [|by apply IH].
    by apply vmap_no_escape, at_loc_no_escape.
Qed.

Lemma list_schema_total {A} (s : schema A) : total s → total (list_schema s).
Proof. intros Hs v. destruct v; try done. by apply list_items_no_escape. Qed.

Lemma model_schema_total : total (model_schema EliaChatModel.validate).
Proof. intros v. destruct v; try done. apply EliaChatModel_validate_no_escape. Qed.

Lemma system_prompt_schema_total : total (field_validator str_schema LaunchConfig.non_empty).
Proof.
  intros v. unfold field_validator. destruct v; try done. simpl.
  rewrite non_empty_spec. by destruct (all_space s).
Qed.

Lemma EliaChatModel_validate_missing_name d :
  d !! "name" = None → reports ([LField "name"], missing) (EliaChatModel.validate d).
Proof.
  intros Hname.
  assert (reports_first ([LField "name"], missing) (EliaChatModel.validate d)) as [es ->].
  { unfold EliaChatModel.validate, float_schema, int_schema, url_schema.
    do 10 (apply ap_reports; [|by auto with no_escape]).
    rewrite (field_missing _ _ _ Hname). by exists []. }
  eexists. split; [reflexivity|]. by left.
Qed.

(** X16: A user's model without [name] makes the whole configuration fail, and
    the validation error says where: at [models], at the index of the
    model, at [name]. *)
Theorem user_model_without_name_located p kwargs l i d :
  kwargs !! "models" = Some (VList l) →
  l !! i = Some (VDict d) →
  d !! "name" = None →
  ∃ errors, construct p kwargs = Raise (ValidationError "LaunchConfig" errors)
    ∧ ([LField "models"; LIndex i; LField "name"], missing) ∈ errors.
Proof.
  intros Hk Hi Hname. destruct get_builtin_models_returns as [builtin Hb].
  assert (reports ([LField "models"; LIndex i; LField "name"], missing)
            (LaunchConfig.validate (LaunchConfig_class p) kwargs)) as (errors & Hv & Hin).
  { unfold LaunchConfig.validate. rewrite Hb.
    pose proof model_schema_total. pose proof system_prompt_schema_total.
    apply ap_reports_left; [|by auto using list_schema_total with no_escape].
    apply ap_reports_left; [|by auto using list_schema_total with no_escape].
    apply ap_reports_right; [repeat apply ap_no_escape; by auto with no_escape|].
    rewrite (field_lookup _ _ _ _ _ Hk). apply at_loc_reports. simpl.
    apply (list_items_reports _ 0 l i (VDict d)); [done..|].
    simpl. by apply EliaChatModel_validate_missing_name. }
  exists errors. split; [|done].
  unfold construct, LaunchConfig.new. by rewrite Hv.
Qed.

End configurations.

(** ** The builtin tables *)

(** The table is built without error, whatever the library's conversions
    are. *)
Lemma builtin_themes :
  ∃ table : gmap string Theme.t,
    (∀ L : Lax, @BUILTIN_THEMES L = Return table)
    ∧ dom table
      = {[ "textual"; "monokai"; "nautilus"; "galaxy"; "nebula"; "alpine"; "cobalt";
           "twilight"; "hacker" ]}
    ∧ Forall (λ kt, Theme.name kt.2 = kt.1 ∧ Theme.dark kt.2 = true ∧ Theme.variables kt.2 = ∅)
        (map_to_list table).
Proof.
  eexists. split; [|split].
  - intros L. pose proof (lax_bool_exact true) as E. vm_compute in E.
    unfold BUILTIN_THEMES. eval_theme_calls E. reflexivity.
  - (apply (bool_decide_unpack _); vm_compute; exact I).
  - match goal with |- Forall _ ?l =>
      let l' := eval vm_compute in l in change l with l' end.
    repeat constructor.
Qed.

Section tables.
Context `{L : Lax}.

(** X17: Importing [elia_chat.themes] succeeds: each of the nine builtin themes
    passes the validation of [Theme]. Each is stored under its own [name],
    is dark and has no variables. *)
Theorem builtin_themes_keyed_by_name :
  ∃ table, BUILTIN_THEMES = Return table
    ∧ dom table
      = {[ "textual"; "monokai"; "nautilus"; "galaxy"; "nebula"; "alpine"; "cobalt";
           "twilight"; "hacker" ]}
    ∧ ∀ k t, table !! k = Some t →
        Theme.name t = k ∧ Theme.dark t = true ∧ Theme.variables t = ∅.
Proof.
  destruct builtin_themes as (table & Htable & Hdom & Hall).
  exists table. split_and!; [by apply Htable|done|].
  intros k t Hk. apply elem_of_map_to_list in Hk.
  rewrite Forall_forall in Hall. by apply (Hall (k, t)).
Qed.

(** X18: The [theme] of a configuration built with no arguments is the name of
    a builtin theme. *)
Theorem default_theme_is_builtin p :
  ∃ c table t, construct p ∅ = Return c
    ∧ BUILTIN_THEMES = Return table
    ∧ table !! LaunchConfig.theme c = Some t
    ∧ Theme.name t = LaunchConfig.theme c.
Proof.
  destruct builtin_themes as (table & Htable & Hdom & Hall).
  destruct get_builtin_models_returns as [builtin Hb].
  assert (is_Some (table !! "nebula")) as [t Ht].
  { apply elem_of_dom. rewrite Hdom. apply (bool_decide_unpack _). vm_compute. exact I. }
  exists {| LaunchConfig.default_model := "elia-gpt-4.1";
            LaunchConfig.system_prompt :=
              LaunchConfig.system_prompt_default (LaunchConfig_class p);
            LaunchConfig.message_code_theme := "monokai";
            LaunchConfig.models := [];
            LaunchConfig.builtin_models := builtin;
            LaunchConfig.theme := "nebula" |}, table, t.
  split_and!; [|by apply Htable|exact Ht|].
  - unfold construct, LaunchConfig.new, LaunchConfig.validate. rewrite Hb. reflexivity.
  - apply elem_of_map_to_list in Ht.
    rewrite Forall_forall in Hall. by apply (Hall ("nebula", t)).
Qed.

(** X19: In the builtin catalog the key of each model is ["elia-"] followed by
    its [name]; the keys are pairwise distinct, and so are the names: a
    builtin model is found by its key or by its name alike. *)
Theorem builtin_lookup_keys :
  ∃ builtin, get_builtin_models = Return builtin
    ∧ Forall (λ m, EliaChatModel.lookup_key m = "elia-" +:+ EliaChatModel.name m) builtin
    ∧ NoDup (EliaChatModel.lookup_key <$> builtin)
    ∧ NoDup (EliaChatModel.name <$> builtin).
Proof.
  pose proof (lax_float_exact float_0_7) as E. vm_compute in E.
  eexists. split_and!.
  - vm_compute. rewrite E. reflexivity.
  - repeat constructor.
  - apply (bool_decide_unpack _). vm_compute. exact I.
  - apply (bool_decide_unpack _). vm_compute. exact I.
Qed.

(** X20: The [default_model] of a configuration built with no arguments is
    the key of exactly one of its models, the first of [all_models]: the
    builtin [gpt-4.1] of OpenAI. *)
Theorem default_model_names_one_model p :
  ∃ c m, construct p ∅ = Return c
    ∧ filter (λ m, EliaChatModel.lookup_key m = LaunchConfig.default_model c)
        (LaunchConfig.all_models c) = [m]
    ∧ LaunchConfig.all_models c !! 0 = Some m
    ∧ EliaChatModel.name m = "gpt-4.1"
    ∧ EliaChatModel.provider m = Some "OpenAI".
Proof.
  pose proof (lax_float_exact float_0_7) as E. vm_compute in E.
  eassert (get_builtin_models = Return _) as Hb by (vm_compute; rewrite E; reflexivity).
  eexists _, _. split_and!.
  - unfold construct, LaunchConfig.new, LaunchConfig.validate. rewrite Hb. reflexivity.
  - vm_compute. reflexivity.
  - reflexivity.
  - reflexivity.
  - reflexivity.
Qed.

End tables.

(** ** What a construction does not check *)

Section unchecked.
Context `{L : Lax}.

(** X21: A configuration takes any [default_model] and any [theme]: neither
    is looked up among the models or the themes when the configuration is
    built. *)
Theorem references_unchecked p default_model theme :
  ∃ c, construct p {[ "default_model" := VStr default_model; "theme" := VStr theme ]}
       = Return c
    ∧ LaunchConfig.default_model c = default_model
    ∧ LaunchConfig.theme c = theme.
Proof.
  destruct get_builtin_models_returns as [builtin Hb].
  unfold construct, LaunchConfig.new, LaunchConfig.validate. rewrite Hb.
  rewrite (field_lookup "default_model" _ _ _ (VStr default_model)) by reflexivity.
  rewrite (field_lookup "theme" _ _ _ (VStr theme)) by reflexivity.
  rewrite !field_absent by reflexivity.
  eexists. split_and!; reflexivity.
Qed.

(** X22: A model descriptor made from a [name] alone: every other field has
    its default, the temperature is [1.0], there are no retries, and the
    key is the [name]. *)
Theorem model_from_name_alone name :
  ∃ m, EliaChatModel.new {[ "name" := VStr name ]} = Return m
    ∧ m = {| EliaChatModel.name := name; EliaChatModel.id := None;
             EliaChatModel.display_name := None; EliaChatModel.provider := None;
             EliaChatModel.api_key := None; EliaChatModel.api_base := None;
             EliaChatModel.organization := None; EliaChatModel.description := None;
             EliaChatModel.product := None; EliaChatModel.temperature := 1%float;
             EliaChatModel.max_retries := 0%Z |}
    ∧ EliaChatModel.lookup_key m = name.
Proof.
  eexists. split_and!; [|reflexivity|reflexivity].
  unfold EliaChatModel.new, EliaChatModel.validate.
  rewrite (field_lookup "name" _ _ _ (VStr name)) by reflexivity.
  rewrite !field_absent by reflexivity.
  reflexivity.
Qed.

End unchecked.

(** ** Concrete runs of the further properties *)

(** A directory with a note, a good theme and a second theme of the same
    name. *)
Lemma loaded_themes_keyed_by_name_witness :
  let listing :=
    [ {| path := "/home/user/.config/elia/themes/README.txt"; suffix := ".txt";
         yaml_load := Raise (YAMLError "not YAML") |};
      {| path := "/home/user/.config/elia/themes/foo.yaml"; suffix := ".yaml";
         yaml_load := Return (VDict {[ "name" := VStr "foo"; "primary" := VStr "#112233";
                                       "variables" := VDict ∅ ]}) |} ] in
  ∃ themes, load_user_themes (H := exact_only) listing = Return themes
    ∧ ∀ k t, themes !! k = Some t →
        Theme.name t = k
        ∧ ∃ f, f ∈ listing ∧ theme_suffix f = true ∧ holds_theme (H := exact_only) f t.
Proof.
  intros listing. eexists. split; [vm_compute; reflexivity|].
  apply (loaded_themes_keyed_by_name (L := exact_only) listing).
  vm_compute. reflexivity.
Defined.

(** Two files name their theme [foo]; the second is the one loaded. *)
Lemma later_theme_wins_witness :
  let first :=
    {| path := "/home/user/.config/elia/themes/a.yaml"; suffix := ".yaml";
       yaml_load := Return (VDict {[ "name" := VStr "foo"; "primary" := VStr "#112233";
                                     "variables" := VDict ∅ ]}) |} in
  let second :=
    {| path := "/home/user/.config/elia/themes/b.yml"; suffix := ".yml";
       yaml_load := Return (VDict {[ "name" := VStr "foo"; "primary" := VStr "#445566";
                                     "variables" := VDict ∅ ]}) |} in
  let t :=
    {| Theme.name := "foo"; Theme.primary := "#445566";
       Theme.secondary := None; Theme.background := None;
       Theme.surface := None; Theme.panel := None;
       Theme.warning := None; Theme.error := None;
       Theme.success := None; Theme.accent := None;
       Theme.dark := true; Theme.variables := ∅ |} in
  ∃ themes, load_user_themes (H := exact_only) ([first] ++ second :: []) = Return themes
    ∧ themes !! Theme.name t = Some t.
Proof.
  intros first second t.
  eexists. split; [vm_compute; reflexivity|].
  apply (later_theme_wins (L := exact_only) [first] second []).
  - vm_compute. reflexivity.
  - reflexivity.
  - eexists. split; [reflexivity|]. vm_compute. reflexivity.
  - intros f' t' Hin. by apply elem_of_nil in Hin.
Defined.

(** An empty theme file. *)
Lemma falsy_document_read_as_empty_witness :
  load_user_themes (H := exact_only)
    ([] ++ {| path := "/home/user/.config/elia/themes/empty.yaml"; suffix := ".yaml";
              yaml_load := Return VNone |} :: [])
  = Raise (ValidationError "Theme"
             [([LField "name"], missing); ([LField "primary"], missing);
              ([LField "variables"], missing)]).
Proof.
  apply (falsy_document_read_as_empty (L := exact_only) [] _ [] ∅ VNone); reflexivity.
Defined.

(** A theme file that holds a list. *)
Lemma non_mapping_document_type_error_witness :
  ∃ msg,
    load_user_themes (H := exact_only)
      ([] ++ {| path := "/home/user/.config/elia/themes/list.yaml"; suffix := ".yaml";
                yaml_load := Return (VList [VStr "foo"]) |} :: [])
    = Raise (TypeError msg).
Proof.
  apply (non_mapping_document_type_error (L := exact_only) [] _ [] ∅ (VList [VStr "foo"]));
    try reflexivity.
  intros d. discriminate.
Defined.

(** A theme file that cannot be read, before a good one. *)
Lemma open_or_parse_error_propagates_witness :
  load_user_themes (H := exact_only)
    ([] ++ {| path := "/home/user/.config/elia/themes/locked.yaml"; suffix := ".yaml";
              yaml_load := Raise (OSError "Permission denied") |}
        :: [ {| path := "/home/user/.config/elia/themes/foo.yaml"; suffix := ".yaml";
                yaml_load := Return (VDict {[ "name" := VStr "foo";
                                              "primary" := VStr "#112233";
                                              "variables" := VDict ∅ ]}) |} ])
  = Raise (OSError "Permission denied").
Proof.
  apply (open_or_parse_error_propagates (L := exact_only) [] _ _ ∅); reflexivity.
Defined.

(** A directory with one theme file that has no [name]. *)
Lemma loader_outcomes_witness :
  let listing :=
    [ {| path := "/home/user/.config/elia/themes/broken.yaml"; suffix := ".yaml";
         yaml_load := Return (VDict {[ "primary" := VStr "#112233" ]}) |} ] in
  ((∃ themes, load_user_themes (H := exact_only) listing = Return themes)
   ∨ (∃ errors, load_user_themes (H := exact_only) listing
                = Raise (ValidationError "Theme" errors))
   ∨ (∃ msg, load_user_themes (H := exact_only) listing = Raise (TypeError msg)))
  ∧ (∀ msg, load_user_themes (H := exact_only) listing ≠ Raise (ValueError msg))
  ∧ (∀ key, load_user_themes (H := exact_only) listing ≠ Raise (KeyError key)).
Proof.
  intros listing. apply (loader_outcomes (L := exact_only) listing).
  intros f Hin _. apply list_elem_of_singleton in Hin as ->. eexists. reflexivity.
Defined.

(** A prompt with blanks around it is kept with them. *)
Lemma explicit_system_prompt_kept_witness :
  ∃ c, construct (H := exact_only) (import_config ∅) {[ "system_prompt" := VStr " Be brief. " ]}
       = Return c
    ∧ ∃ s, VStr " Be brief. " = VStr s ∧ all_space s = false
           ∧ LaunchConfig.system_prompt c = s.
Proof.
  eexists. split; [vm_compute; reflexivity|].
  apply (explicit_system_prompt_kept (L := exact_only) (import_config ∅)
           {[ "system_prompt" := VStr " Be brief. " ]}).
  - reflexivity.
  - vm_compute. reflexivity.
Defined.

(** The variable is set at import and changed afterwards; the
    configuration passes a theme only. *)
Lemma default_system_prompt_from_import_witness :
  let environ : gmap string string := {[ "ELIA_SYSTEM_PROMPT" := "You are terse." ]} in
  let p := {| os_environ := <["ELIA_SYSTEM_PROMPT" := "You are chatty."]>
                              (os_environ (import_config environ));
              LaunchConfig_class := LaunchConfig_class (import_config environ) |} in
  ∃ c, construct (H := exact_only) p {[ "theme" := VStr "galaxy" ]} = Return c
    ∧ LaunchConfig.system_prompt c = "You are terse.".
Proof.
  intros environ p. eexists. split; [vm_compute; reflexivity|].
  apply (default_system_prompt_from_import (L := exact_only) environ p
           {[ "theme" := VStr "galaxy" ]}).
  - apply rtc_once. apply step_setenv.
  - reflexivity.
  - vm_compute. reflexivity.
Defined.

(** The variable holds three blanks at import. *)
Lemma blank_default_system_prompt_accepted_witness :
  ∃ c, LaunchConfig.get_current (H := exact_only)
         (LaunchConfig.class_body {[ "ELIA_SYSTEM_PROMPT" := "   " ]}) = Return c
       ∧ LaunchConfig.system_prompt c = "   ".
Proof.
  apply (blank_default_system_prompt_accepted (L := exact_only)
           {[ "ELIA_SYSTEM_PROMPT" := "   " ]} "   ").
  reflexivity.
Defined.

(** A configuration with one model of the user. *)
Lemma builtin_models_is_catalog_witness :
  let kwargs : gmap string value :=
    {[ "models" := VList [VDict {[ "name" := VStr "llama3"; "id" := VStr "local" ]}] ]} in
  ∃ c, construct (H := exact_only) (import_config ∅) kwargs = Return c
    ∧ ∃ builtin, get_builtin_models (H := exact_only) = Return builtin
        ∧ LaunchConfig.builtin_models c = builtin
        ∧ LaunchConfig.all_models c = (LaunchConfig.models c ++ builtin)%list.
Proof.
  intros kwargs. eexists. split; [vm_compute; reflexivity|].
  apply (builtin_models_is_catalog (L := exact_only) (import_config ∅) kwargs).
  - reflexivity.
  - vm_compute. reflexivity.
Defined.

(** A configuration with three models of the user, two of them of the
    same provider model: they are kept in the order given. *)
Lemma models_validated_in_order_witness :
  let l :=
    [ VDict {[ "name" := VStr "mistral"; "id" := VStr "local-mistral" ]};
      VDict {[ "name" := VStr "gpt-4o"; "id" := VStr "work" ]};
      VDict {[ "name" := VStr "gpt-4o"; "id" := VStr "personal" ]} ] in
  ∃ c, construct (H := exact_only) (import_config ∅) {[ "models" := VList l ]} = Return c
    ∧ Forall2 (λ v m, ∃ d, v = VDict d ∧ EliaChatModel.new (H := exact_only) d = Return m)
        l (LaunchConfig.models c)
    ∧ EliaChatModel.lookup_key <$> LaunchConfig.models c
      = ["local-mistral"; "work"; "personal"].
Proof.
  intros l. eexists. split; [vm_compute; reflexivity|]. split; [|reflexivity].
  apply (models_validated_in_order (L := exact_only) (import_config ∅)
           {[ "models" := VList l ]}).
  - reflexivity.
  - vm_compute. reflexivity.
Defined.

(** The second model of the user has an [id] and no [name]. *)
Lemma user_model_without_name_located_witness :
  let l := [VDict {[ "name" := VStr "llama3" ]}; VDict {[ "id" := VStr "local" ]}] in
  ∃ errors,
    construct (H := exact_only) (import_config ∅) {[ "models" := VList l ]}
    = Raise (ValidationError "LaunchConfig" errors)
    ∧ ([LField "models"; LIndex 1; LField "name"], missing) ∈ errors.
Proof.
  intros l.
  apply (user_model_without_name_located (L := exact_only) (import_config ∅)
           {[ "models" := VList l ]} l 1 {[ "id" := VStr "local" ]}); reflexivity.
Defined.
